(** * Batch audio conversion driver ([convert_audio.py])

    A shallow embedding of the two functions of [convert_audio.py],
    [convert_audio_file] and [main], over an explicit model of what they
    touch: the working directory's file system, the console, and the
    external process started through [subprocess.run].

    The script is written against [pathlib], [subprocess], [print] and
    [sys.exit]; those primitives are modelled first (sections "Paths",
    "Exceptions", "File system", "Processes"), the two functions of the
    script follow ("The script"), then the vocabulary the properties are
    stated in, and the properties come last.

    Two further models stand beside it: [YTMusicScripts], the two scripts
    [test.py] and [setup_auth.py] over the [ytmusicapi] client, and
    [StrictIO], [convert_audio_file] again over a console that can refuse
    a line and a captured output that can fail to decode. *)

From Stdlib Require Import List String Ascii Bool Arith ZArith QArith Lia.
From Stdlib Require Import DecimalString.
Import ListNotations.

Local Open Scope string_scope.
Local Open Scope list_scope.

(** ** Strings *)

Definition nl : string := String (ascii_of_nat 10) EmptyString.

(** [str(n)] for a Python [int]. *)
Definition str_int (n : Z) : string := NilZero.string_of_int (Z.to_int n).

(** ['c' * n]. *)
Fixpoint str_repeat (c : string) (n : nat) : string :=
  match n with
  | O => ""
  | S n' => c ++ str_repeat c n'
  end.

Fixpoint list_eqb {A : Type} (eqb : A -> A -> bool) (l1 l2 : list A) : bool :=
  match l1, l2 with
  | [], [] => true
  | x :: l1', y :: l2' => eqb x y && list_eqb eqb l1' l2'
  | _, _ => false
  end.

(** ** Paths

    A [pathlib.Path] relative to the working directory is the list of its
    components; the two flavours differ in the separator [str] puts
    between them and in the case sensitivity of pattern matching. *)

Inductive flavour := Posix | Windows.

Definition sep (fl : flavour) : string :=
  match fl with Posix => "/" | Windows => "\" end.

Definition path := list string.

Definition path_eqb : path -> path -> bool := list_eqb String.eqb.

(** Splitting a string at every ["/"]; [acc] is the component read so
    far. *)
Fixpoint split_slash (s : string) (acc : string) : list string :=
  match s with
  | EmptyString => [acc]
  | String c s' =>
      if Ascii.eqb c "/"%char then acc :: split_slash s' ""
      else split_slash s' (acc ++ String c EmptyString)
  end.

(** [Path(s)]: the components of [s], empty ones and ["."] dropped. *)
Definition Path (s : string) : path :=
  filter (fun c => negb (String.eqb c "" || String.eqb c ".")) (split_slash s "").

(** [p.name]: the final component, or the empty string. *)
Definition name (p : path) : string := last p "".

(** [p.parent]. *)
Definition parent (p : path) : path := removelast p.

(** [p / child], for a [child] that is a single component. *)
Definition joinpath (p : path) (child : string) : path := p ++ [child].

(** [str(p)]; the path with no component prints as ["."]. *)
Definition str_path (fl : flavour) (p : path) : string :=
  match p with
  | [] => "."
  | _ => String.concat (sep fl) p
  end.

(** *** Shell-style patterns

    [fnmatch] restricted to what the script's pattern uses: literal
    characters and [*]. *)

Fixpoint wildcard (pat : list ascii) (s : list ascii) {struct pat} : bool :=
  match pat with
  | [] => match s with [] => true | _ => false end
  | c :: pat' =>
      if Ascii.eqb c "*"%char then
        (fix star (s : list ascii) : bool :=
           wildcard pat' s
           || match s with [] => false | _ :: s' => star s' end) s
      else
        match s with
        | [] => false
        | d :: s' => Ascii.eqb c d && wildcard pat' s'
        end
  end.

Definition lower (c : ascii) : ascii :=
  let n := nat_of_ascii c in
  if (65 <=? n)%nat && (n <=? 90)%nat then ascii_of_nat (n + 32) else c.

Definition normcase (fl : flavour) (s : string) : list ascii :=
  match fl with
  | Posix => list_ascii_of_string s
  | Windows => map lower (list_ascii_of_string s)
  end.

Definition fnmatch (fl : flavour) (pat s : string) : bool :=
  wildcard (normcase fl pat) (normcase fl s).

(** ** Exceptions

    The part of Python's exception hierarchy the script meets: what
    [subprocess.run] and [Path.mkdir] raise, and the [SystemExit] of
    [sys.exit].  [base] is the class a class derives from. *)

Inductive exn_class :=
  | BaseException
  | SystemExit
  | KeyboardInterrupt
  | Exception
  | OSError
  | FileNotFoundError
  | FileExistsError
  | NotADirectoryError
  | PermissionError
  | SubprocessError
  | TimeoutExpired
  | CalledProcessError
  | ValueError.

Definition base (c : exn_class) : option exn_class :=
  match c with
  | BaseException => None
  | SystemExit | KeyboardInterrupt | Exception => Some BaseException
  | OSError | SubprocessError | ValueError => Some Exception
  | FileNotFoundError | FileExistsError | NotADirectoryError
  | PermissionError => Some OSError
  | TimeoutExpired | CalledProcessError => Some SubprocessError
  end.

Definition exn_class_eqb (c d : exn_class) : bool :=
  match c, d with
  | BaseException, BaseException | SystemExit, SystemExit
  | KeyboardInterrupt, KeyboardInterrupt | Exception, Exception
  | OSError, OSError | FileNotFoundError, FileNotFoundError
  | FileExistsError, FileExistsError
  | NotADirectoryError, NotADirectoryError
  | PermissionError, PermissionError | SubprocessError, SubprocessError
  | TimeoutExpired, TimeoutExpired
  | CalledProcessError, CalledProcessError | ValueError, ValueError => true
  | _, _ => false
  end.

(** [issubclass(c, d)]; the hierarchy above is four levels deep. *)
Fixpoint issubclass_upto (n : nat) (c d : exn_class) : bool :=
  exn_class_eqb c d
  || match n with
     | O => false
     | S n' => match base c with
               | Some b => issubclass_upto n' b d
               | None => false
               end
     end.

Definition issubclass : exn_class -> exn_class -> bool := issubclass_upto 4.

(** A raised exception: its class, [str(e)], and for [SystemExit] the
    exit code. *)
Record exn := mkExn { exn_cls : exn_class; exn_str : string; exn_code : Z }.

Definition isinstance (e : exn) (c : exn_class) : bool :=
  issubclass (exn_cls e) c.

(** The errors an operation of the environment can fail with are the
    classes below [Exception]: an operator interrupt is the process being
    terminated from outside, not an outcome of the operation. *)
Record error := mkError {
  err_cls : exn_class;
  err_str : string;
  err_is_Exception : issubclass err_cls Exception = true
}.

Definition exn_of_error (e : error) : exn := mkExn (err_cls e) (err_str e) 0.

Inductive result (A : Type) :=
  | Ret (a : A)
  | Raise (e : exn).
Arguments Ret {A} a.
Arguments Raise {A} e.

(** ** File system

    The entries below the working directory, in the order the operating
    system enumerates them.  The working directory itself is the empty
    path and always a directory.  The model has no permissions and no
    symbolic links. *)

Inductive kind := RegularFile | Directory.

Definition filesystem := list (path * kind).

Fixpoint entry (fs : filesystem) (p : path) : option kind :=
  match fs with
  | [] => None
  | (q, k) :: fs' => if path_eqb q p then Some k else entry fs' p
  end.

Definition kind_at (fs : filesystem) (p : path) : option kind :=
  match p with
  | [] => Some Directory
  | _ => entry fs p
  end.

(** [os.stat]: the walk from the working directory down to the path. *)
Inductive stat_result := Found (k : kind) | ENOENT | ENOTDIR.

Fixpoint stat_from (fs : filesystem) (cur : path) (rest : list string)
  : stat_result :=
  match rest with
  | [] => match kind_at fs cur with
          | Some k => Found k
          | None => ENOENT
          end
  | c :: rest' =>
      match kind_at fs cur with
      | Some Directory => stat_from fs (cur ++ [c]) rest'
      | Some RegularFile => ENOTDIR
      | None => ENOENT
      end
  end.

Definition stat (fs : filesystem) (p : path) : stat_result := stat_from fs [] p.

(** [Path.exists()] and [Path.is_dir()]: both answer [False] where the
    walk fails. *)
Definition path_exists (fs : filesystem) (p : path) : bool :=
  match stat fs p with Found _ => true | _ => false end.

Definition is_dir (fs : filesystem) (p : path) : bool :=
  match stat fs p with Found Directory => true | _ => false end.

Definition os_error (c : exn_class) (p : string) : exn := mkExn c p 0.

(** [os.mkdir(p)]. *)
Definition os_mkdir (fl : flavour) (fs : filesystem) (p : path)
  : result filesystem :=
  match stat fs p with
  | Found _ => Raise (os_error FileExistsError (str_path fl p))
  | ENOTDIR => Raise (os_error NotADirectoryError (str_path fl p))
  | ENOENT =>
      match stat fs (parent p) with
      | Found Directory => Ret (fs ++ [(p, Directory)])
      | Found RegularFile =>
          Raise (os_error NotADirectoryError (str_path fl p))
      | ENOENT => Raise (os_error FileNotFoundError (str_path fl p))
      | ENOTDIR => Raise (os_error NotADirectoryError (str_path fl p))
      end
  end.

(** [Path.mkdir(parents, exist_ok)], as [pathlib] writes it: try
    [os.mkdir]; when the parent is missing and [parents] is set, make the
    parent and try again; any other [OSError] is swallowed only when
    [exist_ok] is set and the path is a directory.  The recursion goes up
    one component at a time, so the number of components bounds it. *)
Fixpoint path_mkdir_upto (n : nat) (fl : flavour) (fs : filesystem)
  (p : path) (parents exist_ok : bool) : result filesystem :=
  match os_mkdir fl fs p with
  | Ret fs' => Ret fs'
  | Raise e =>
      if exn_class_eqb (exn_cls e) FileNotFoundError then
        if negb parents || path_eqb (parent p) p then Raise e
        else
          match n with
          | O => Raise e
          | S n' =>
              match path_mkdir_upto n' fl fs (parent p) true true with
              | Raise e' => Raise e'
              | Ret fs1 => path_mkdir_upto n' fl fs1 p false exist_ok
              end
          end
      else if negb exist_ok || negb (is_dir fs p) then Raise e
      else Ret fs
  end.

Definition path_mkdir (fl : flavour) (fs : filesystem) (p : path)
  (parents exist_ok : bool) : result filesystem :=
  path_mkdir_upto (List.length p) fl fs p parents exist_ok.

(** [d.glob(pattern)] for a pattern without a separator: the entries
    directly inside [d] whose name matches, in enumeration order; nothing
    when [d] is not a directory. *)
Definition is_child (d p : path) : bool :=
  match p with
  | [] => false
  | _ => path_eqb (parent p) d
  end.

Definition glob (fl : flavour) (fs : filesystem) (d : path) (pattern : string)
  : list path :=
  if is_dir fs d then
    filter (fun p => is_child d p && fnmatch fl pattern (name p)) (map fst fs)
  else [].

(** ** Processes

    What [subprocess.run] is called with, and what the program it starts
    can do: fail to start (the executable cannot be resolved, or any other
    error), run for some seconds and exit with a status, or never exit. *)

Record invocation := mkInvocation {
  args : list string;
  capture_output : bool;
  text : bool;
  timeout : Q
}.

Record CompletedProcess := mkCompleted {
  returncode : Z;
  stdout : string;
  stderr : string
}.

Inductive proc_behaviour :=
  | Fails (e : error)
  | Exits (seconds : Q) (status : Z) (out err : string)
  | Hangs.

Definition tool_not_found : proc_behaviour :=
  Fails (mkError FileNotFoundError
           "[Errno 2] No such file or directory: 'ffmpeg.exe'" eq_refl).

Definition environment := list string -> proc_behaviour.

(** ** The state of a run and its monad *)

Record world := mkWorld {
  fs : filesystem;
  console : list string;
  spawned : list invocation
}.

Definition M (A : Type) : Type := world -> result A * world.

Definition ret {A : Type} (a : A) : M A := fun w => (Ret a, w).

Definition raise {A : Type} (e : exn) : M A := fun w => (Raise e, w).

Definition bind {A B : Type} (m : M A) (k : A -> M B) : M B :=
  fun w =>
    match m w with
    | (Ret a, w') => k a w'
    | (Raise e, w') => (Raise e, w')
    end.

Declare Scope monad_scope.
Delimit Scope monad_scope with monad.
Notation "x <- m ;; k" := (bind m (fun x => k))
  (at level 61, m at next level, right associativity) : monad_scope.
Notation "m ;; k" := (bind m (fun _ => k))
  (at level 61, right associativity) : monad_scope.
Local Open Scope monad_scope.

(** [print(s)]: one more line on the console. *)
Definition print (s : string) : M unit :=
  fun w => (Ret tt, mkWorld (fs w) (console w ++ [s]) (spawned w)).

(** [sys.exit(code)] raises [SystemExit]. *)
Definition sys_exit {A : Type} (code : Z) : M A :=
  raise (mkExn SystemExit (str_int code) code).

(** [try: body  except c1: h1  except c2: h2 ...]: the first clause whose
    class the exception is an instance of handles it; with none, the
    exception propagates. *)
Fixpoint dispatch {A : Type} (handlers : list (exn_class * (exn -> M A)))
  (e : exn) : M A :=
  match handlers with
  | [] => raise e
  | (c, h) :: handlers' =>
      if isinstance e c then h e else dispatch handlers' e
  end.

Definition try_except {A : Type} (body : M A)
  (handlers : list (exn_class * (exn -> M A))) : M A :=
  fun w =>
    match body w with
    | (Ret a, w') => (Ret a, w')
    | (Raise e, w') => dispatch handlers e w'
    end.

(** [for x in xs: acc = body(x, acc)]. *)
Fixpoint for_each {A S : Type} (xs : list A) (body : A -> S -> M S) (acc : S)
  : M S :=
  match xs with
  | [] => ret acc
  | x :: xs' => acc' <- body x acc ;; for_each xs' body acc'
  end.

(** ** The script

    Parameters of a run: the path flavour of the platform and the
    behaviour of the program each command line starts. *)

Section Script.

Variable fl : flavour.
Variable env : environment.

(** [subprocess.run(cmd, capture_output=..., text=..., timeout=...)]: the
    call is recorded, then the program's behaviour decides between a
    [CompletedProcess] and an exception; a program still running when the
    timeout expires is killed and [TimeoutExpired] is raised. *)
Definition subprocess_run (cmd : list string) (capture_output text : bool)
  (timeout : Q) : M CompletedProcess :=
  fun w =>
    let w' := mkWorld (fs w) (console w)
                (spawned w ++ [mkInvocation cmd capture_output text timeout]) in
    let timed_out :=
      mkExn TimeoutExpired "Command timed out" 0 in
    match env cmd with
    | Fails e => (Raise (exn_of_error e), w')
    | Exits seconds status out err =>
        if Qle_bool seconds timeout then
          (Ret (mkCompleted status
                  (if capture_output then out else "")
                  (if capture_output then err else "")), w')
        else (Raise timed_out, w')
    | Hangs => (Raise timed_out, w')
    end.

(** The command line [convert_audio_file] builds. *)
Definition ffmpeg_cmd (input_path output_path : path) : list string :=
  [ "ffmpeg.exe";
    "-i"; str_path fl input_path;
    "-ar"; "44100";
    "-ac"; "2";
    "-b:a"; "192k";
    "-y";
    str_path fl output_path ].

Definition msg_converted : string := "  ✓ Converted successfully".
Definition msg_ffmpeg_error (stderr : string) : string :=
  "  ✗ ffmpeg error: " ++ stderr.
Definition msg_timed_out : string := "  ✗ Conversion timed out".
Definition msg_not_found : string :=
  "  ✗ ffmpeg not found. Make sure ffmpeg.exe is in your PATH or in the current directory".
Definition msg_error (e : exn) : string := "  ✗ Error: " ++ exn_str e.

Definition convert_audio_file (input_path output_path : path) : M bool :=
  print ("Converting: " ++ name input_path) ;;
  try_except
    (let cmd := ffmpeg_cmd input_path output_path in
     result <- subprocess_run cmd true true 60 ;;
     if (returncode result =? 0)%Z then
       print msg_converted ;;
       ret true
     else
       print (msg_ffmpeg_error (stderr result)) ;;
       ret false)
    [ (TimeoutExpired, fun _ => print msg_timed_out ;; ret false);
      (FileNotFoundError, fun _ => print msg_not_found ;; ret false);
      (Exception, fun e => print (msg_error e) ;; ret false) ].

Definition exists_ (p : path) : M bool := fun w => (Ret (path_exists (fs w) p), w).

Definition mkdir (p : path) (parents exist_ok : bool) : M unit :=
  fun w =>
    match path_mkdir fl (fs w) p parents exist_ok with
    | Ret fs' => (Ret tt, mkWorld fs' (console w) (spawned w))
    | Raise e => (Raise e, w)
    end.

Definition glob_ (d : path) (pattern : string) : M (list path) :=
  fun w => (Ret (glob fl (fs w) d pattern), w).

Definition len {A : Type} (l : list A) : Z := Z.of_nat (List.length l).

Definition rule : string := str_repeat "=" 60.

Definition msg_summary (success_count total : Z) : string :=
  "Conversion complete: " ++ str_int success_count ++ "/" ++ str_int total
  ++ " successful".

(** The body of the [for] loop of [main]: one file, the counter before,
    the counter after. *)
Definition convert_and_count (output_dir : path) (mp3_file : path)
  (success_count : Z) : M Z :=
  let output_path := joinpath output_dir (name mp3_file) in
  ok <- convert_audio_file mp3_file output_path ;;
  if ok then ret (success_count + 1)%Z else ret success_count.

Definition main : M unit :=
  let music_dir := Path "music" in
  let output_dir := Path "public/music" in
  found <- exists_ music_dir ;;
  (if negb found then
     print ("ERROR: " ++ str_path fl music_dir ++ " directory not found") ;;
     sys_exit 1
   else ret tt) ;;
  mkdir output_dir true true ;;
  mp3_files <- glob_ music_dir "*.mp3" ;;
  (match mp3_files with
   | [] =>
       print ("No MP3 files found in " ++ str_path fl music_dir) ;;
       sys_exit 1
   | _ => ret tt
   end) ;;
  print ("Found " ++ str_int (len mp3_files) ++ " MP3 files" ++ nl) ;;
  success_count <- for_each mp3_files (convert_and_count output_dir) 0%Z ;;
  print (nl ++ rule) ;;
  print (msg_summary success_count (len mp3_files)) ;;
  print rule ;;
  if (success_count <? len mp3_files)%Z then
    print (nl ++ "Some files failed to convert. Check errors above.") ;;
    sys_exit 1
  else ret tt.

(** How the interpreter ends after running [main()] as the script does:
    status 0 when [main] returns, the code of [SystemExit] when
    [sys.exit] was called, and a traceback with status 1 for any other
    exception that reaches the top. *)
Inductive termination :=
  | Exited (status : Z)
  | Traceback (e : exn).

Definition exit_status (t : termination) : Z :=
  match t with
  | Exited status => status
  | Traceback _ => 1
  end.

Definition run_script (w : world) : termination * world :=
  match main w with
  | (Ret _, w') => (Exited 0, w')
  | (Raise e, w') =>
      if exn_class_eqb (exn_cls e) SystemExit then (Exited (exn_code e), w')
      else (Traceback e, w')
  end.

End Script.

(** ** What a conversion comes to

    What a conversion comes to, read off the behaviour of the program:
    whether it counts as a success, and the outcome line printed. *)

Definition tool_succeeds (b : proc_behaviour) : bool :=
  match b with
  | Exits seconds status _ _ => Qle_bool seconds 60 && (status =? 0)%Z
  | _ => false
  end.

(** The line printed for the outcome. *)
Definition outcome_line (b : proc_behaviour) : string :=
  match b with
  | Fails e =>
      if isinstance (exn_of_error e) TimeoutExpired then msg_timed_out
      else if isinstance (exn_of_error e) FileNotFoundError then msg_not_found
      else msg_error (exn_of_error e)
  | Exits seconds status _ err =>
      if Qle_bool seconds 60 then
        if (status =? 0)%Z then msg_converted else msg_ffmpeg_error err
      else msg_timed_out
  | Hangs => msg_timed_out
  end.

(** The program is still running when the timeout expires. *)
Definition runs_past_timeout (b : proc_behaviour) : bool :=
  match b with
  | Exits seconds _ _ _ => negb (Qle_bool seconds 60)
  | Hangs => true
  | Fails _ => false
  end.

(** The tool cannot be resolved: starting it raises [FileNotFoundError]. *)
Definition tool_absent (b : proc_behaviour) : bool :=
  match b with
  | Fails e => exn_class_eqb (err_cls e) FileNotFoundError
  | _ => false
  end.

(** ** What a run does for each file *)

Section Batch.

Variable fl : flavour.
Variable env : environment.

(** The call [subprocess.run] receives for one conversion. *)
Definition attempt (input_path output_path : path) : invocation :=
  mkInvocation (ffmpeg_cmd fl input_path output_path) true true 60.

(** For a file of the batch written to [output_dir]: where it goes, the
    call made for it, whether it converts, and the two lines printed. *)
Definition target (output_dir mp3_file : path) : path :=
  joinpath output_dir (name mp3_file).

Definition call_for (output_dir mp3_file : path) : invocation :=
  attempt mp3_file (target output_dir mp3_file).

Definition converts (output_dir mp3_file : path) : bool :=
  tool_succeeds (env (ffmpeg_cmd fl mp3_file (target output_dir mp3_file))).

Definition lines_for (output_dir mp3_file : path) : list string :=
  [ ("Converting: " ++ name mp3_file)%string;
    outcome_line (env (ffmpeg_cmd fl mp3_file (target output_dir mp3_file))) ].

End Batch.

(** The lines around the loop, and the exception of [sys.exit]. *)
Definition found_line (files : list path) : string :=
  "Found " ++ str_int (len files) ++ " MP3 files" ++ nl.

Definition warning_line : string :=
  nl ++ "Some files failed to convert. Check errors above.".

Definition system_exit (code : Z) : exn := mkExn SystemExit (str_int code) code.

(** ** The destination directory *)

Definition no_file_at (fs : filesystem) (p : path) : bool :=
  match entry fs p with
  | Some RegularFile => false
  | _ => true
  end.

(** No regular file stands where the destination directory or its parent
    has to be. *)
Definition destination_free (fs : filesystem) : bool :=
  no_file_at fs ["public"] && no_file_at fs ["public"; "music"].

(** The directories [mkdir] has to add for the destination to exist. *)
Definition made_dirs (fs : filesystem) : filesystem :=
  (match entry fs ["public"] with
   | None => [(["public"], Directory)]
   | Some _ => []
   end)
  ++
  (match entry fs ["public"; "music"] with
   | None => [(["public"; "music"], Directory)]
   | Some _ => []
   end).

(** ** Sample runs *)

Definition sample_fs : filesystem :=
  [ (["music"], Directory);
    (["music"; "a.mp3"], RegularFile);
    (["music"; "notes.txt"], RegularFile);
    (["music"; "b.mp3"], RegularFile);
    (["music"; "c.mp3"], RegularFile) ].

Definition sample_world : world := mkWorld sample_fs [] [].

Definition sample_files : list path :=
  [ ["music"; "a.mp3"]; ["music"; "b.mp3"]; ["music"; "c.mp3"] ].

(** A tool that does its work in two seconds. *)
Definition env_ok : environment := fun _ => Exits 2 0 "" "".

(** A tool that rejects [b.mp3]. *)
Definition env_rejects_b : environment :=
  fun cmd =>
    if String.eqb (nth 2 cmd "") "music/b.mp3"
    then Exits 1 1 "" "Invalid data found when processing input"
    else Exits 2 0 "" "".

(** A tool that never comes back from [b.mp3]. *)
Definition env_stuck_on_b : environment :=
  fun cmd =>
    if String.eqb (nth 2 cmd "") "music/b.mp3" then Hangs
    else Exits 2 0 "" "".

(** No tool on the search path. *)
Definition env_absent : environment := fun _ => tool_not_found.

(** A source directory with nothing to convert. *)
Definition world_no_mp3 : world :=
  mkWorld [ (["music"], Directory); (["music"; "notes.txt"], RegularFile) ] [] [].

(** A working directory without the source directory. *)
Definition world_no_source : world :=
  mkWorld [ (["readme.md"], RegularFile) ] [] [].

(** A tool the operating system refuses to start. *)
Definition env_not_executable : environment :=
  fun _ =>
    Fails (mkError PermissionError
             "[Errno 13] Permission denied: 'ffmpeg.exe'" eq_refl).

(** * The YouTube Music scripts ([test.py], [setup_auth.py])

    Both scripts are straight-line module code over the [ytmusicapi]
    client.  The library is a parameter of the model: what constructing a
    client does, and what a search returns or raises.  The dictionaries a
    search returns are Python values, read by the script through [get],
    indexing and truth tests. *)

Module YTMusicScripts.

#[local] Set Warnings "-register-all".

Local Open Scope string_scope.

Inductive value :=
  | VNone
  | VBool (b : bool)
  | VInt (n : Z)
  | VStr (s : string)
  | VList (l : list value)
  | VDict (d : list (string * value)).

Definition type_name (v : value) : string :=
  match v with
  | VNone => "NoneType"
  | VBool _ => "bool"
  | VInt _ => "int"
  | VStr _ => "str"
  | VList _ => "list"
  | VDict _ => "dict"
  end.

(** The exceptions the script's own expressions raise, and the errors of
    the library; all of them are instances of [Exception]. *)
Inductive pyexc :=
  | AttributeError (msg : string)
  | TypeError (msg : string)
  | KeyError (msg : string)
  | IndexError (msg : string)
  | LibraryError (e : error).

Definition str_exc (e : pyexc) : string :=
  match e with
  | AttributeError msg | TypeError msg | KeyError msg | IndexError msg => msg
  | LibraryError e => err_str e
  end.

Definition is_Exception (e : pyexc) : bool :=
  match e with
  | LibraryError e => issubclass (err_cls e) Exception
  | _ => true
  end.

Inductive outcome (A : Type) :=
  | Done (a : A)
  | Throw (e : pyexc).
Arguments Done {A} a.
Arguments Throw {A} e.

(** [bool(v)]. *)
Definition truthy (v : value) : bool :=
  match v with
  | VNone => false
  | VBool b => b
  | VInt n => negb (n =? 0)%Z
  | VStr s => negb (String.eqb s "")
  | VList l => match l with [] => false | _ => true end
  | VDict d => match d with [] => false | _ => true end
  end.

Fixpoint lookup (d : list (string * value)) (key : string) : option value :=
  match d with
  | [] => None
  | (k, v) :: d' => if String.eqb k key then Some v else lookup d' key
  end.

(** [v.get(key, default)]: defined on dictionaries only. *)
Definition get (v : value) (key : string) (default : value) : outcome value :=
  match v with
  | VDict d =>
      match lookup d key with
      | Some x => Done x
      | None => Done default
      end
  | _ =>
      Throw (AttributeError
               ("'" ++ type_name v ++ "' object has no attribute 'get'"))
  end.

(** The number of bytes of the UTF-8 character a byte starts. *)
Definition char_width (c : ascii) : nat :=
  let n := nat_of_ascii c in
  if (n <? 192)%nat then 1
  else if (n <? 224)%nat then 2
  else if (n <? 240)%nat then 3
  else 4.

Definition first_char (s : string) : string :=
  match s with
  | EmptyString => ""
  | String c _ => substring 0 (char_width c) s
  end.

(** [v[0]]. *)
Definition item0 (v : value) : outcome value :=
  match v with
  | VList (x :: _) => Done x
  | VList [] => Throw (IndexError "list index out of range")
  | VStr EmptyString => Throw (IndexError "string index out of range")
  | VStr s => Done (VStr (first_char s))
  | VDict _ => Throw (KeyError "0")
  | _ => Throw (TypeError ("'" ++ type_name v ++ "' object is not subscriptable"))
  end.

(** What the library does: constructing a client with or without an
    authentication file succeeds or raises; a search through a client
    returns a list of values or raises. *)
Record ytmusicapi := {
  YTMusic : option string -> option error;
  search : option string -> string -> string -> list value + error
}.

Inductive api_call :=
  | Construct (auth : option string)
  | Search (auth : option string) (query filter : string).

Record session := mkSession {
  out : list string;
  api : list api_call
}.

Definition S (A : Type) : Type := session -> outcome A * session.

Definition unit_ {A : Type} (a : A) : S A := fun s => (Done a, s).

Definition throw {A : Type} (e : pyexc) : S A := fun s => (Throw e, s).

Definition lift {A : Type} (o : outcome A) : S A := fun s => (o, s).

Definition and_then {A B : Type} (m : S A) (k : A -> S B) : S B :=
  fun s =>
    match m s with
    | (Done a, s') => k a s'
    | (Throw e, s') => (Throw e, s')
    end.

Declare Scope script_scope.
Delimit Scope script_scope with script.
Notation "x <-- m ;;; k" := (and_then m (fun x => k))
  (at level 61, m at next level, right associativity) : script_scope.
Notation "m ;;; k" := (and_then m (fun _ => k))
  (at level 61, right associativity) : script_scope.
Local Open Scope script_scope.

Definition say (line : string) : S unit :=
  fun s => (Done tt, mkSession (out s ++ [line])%list (api s)).

(** [try: body  except Exception as e: handler(e)]. *)
Definition try_except_Exception {A : Type} (body : S A) (handler : pyexc -> S A)
  : S A :=
  fun s =>
    match body s with
    | (Done a, s') => (Done a, s')
    | (Throw e, s') => if is_Exception e then handler e s' else (Throw e, s')
    end.

Fixpoint for_in {A : Type} (xs : list A) (body : A -> S unit) : S unit :=
  match xs with
  | [] => unit_ tt
  | x :: xs' => body x ;;; for_in xs' body
  end.

(** [enumerate(xs, start)]. *)
Fixpoint enumerate {A : Type} (xs : list A) (start : Z) : list (Z * A) :=
  match xs with
  | [] => []
  | x :: xs' => (start, x) :: enumerate xs' (start + 1)
  end.

Section Scripts.

Variable lib : ytmusicapi.

(** The working directory the script is started in. *)
Variable cwd : filesystem.

(** [str] of a list or a dictionary. *)
Variable repr : value -> string.

(** [str(v)], as an f-string formats a value. *)
Definition str (v : value) : string :=
  match v with
  | VNone => "None"
  | VBool true => "True"
  | VBool false => "False"
  | VInt n => str_int n
  | VStr s => s
  | VList _ | VDict _ => repr v
  end.

(** [YTMusic(auth)] and [YTMusic()]; the client is known by how it was
    made. *)
Definition new_client (auth : option string) : S (option string) :=
  fun s =>
    let s' := mkSession (out s) (api s ++ [Construct auth])%list in
    match YTMusic lib auth with
    | None => (Done auth, s')
    | Some e => (Throw (LibraryError e), s')
    end.

(** [ytmusic.search(query, filter=filter)]. *)
Definition client_search (ytmusic : option string) (query filter : string)
  : S (list value) :=
  fun s =>
    let s' := mkSession (out s) (api s ++ [Search ytmusic query filter])%list in
    match search lib ytmusic query filter with
    | inl results => (Done results, s')
    | inr e => (Throw (LibraryError e), s')
    end.

(** The artist expression of [test.py], the fallback list a parameter. *)
Definition artist_with (fallback : value) (song : value) : outcome value :=
  match get song "artists" VNone with
  | Throw e => Throw e
  | Done listed =>
      if truthy listed then
        match get song "artists" fallback with
        | Throw e => Throw e
        | Done artists =>
            match item0 artists with
            | Throw e => Throw e
            | Done first => get first "name" (VStr "Unknown")
            end
        end
      else Done (VStr "Unknown")
  end.

(** The body of the loop of [test.py] up to its [print]: the line for the
    [i]-th song. *)
Definition song_line (i : Z) (song : value) : outcome string :=
  match get song "title" (VStr "Unknown") with
  | Throw e => Throw e
  | Done title =>
      match artist_with (VList [VDict []]) song with
      | Throw e => Throw e
      | Done artist =>
          match get song "duration" (VStr "Unknown") with
          | Throw e => Throw e
          | Done duration =>
              Done (str_int i ++ ". " ++ str title ++ " - " ++ str artist
                    ++ " (" ++ str duration ++ ")")
          end
      end
  end.

Definition error_lines (e : pyexc) : list string :=
  [ nl ++ "Error: " ++ str_exc e;
    nl ++ "If you need full API access, you may need to set up authentication.";
    "Run setup_auth.py for instructions." ].

Definition test_py : S unit :=
  say ("Testing YouTube Music API..." ++ nl) ;;;
  let auth_file := "headers_auth.json" in
  ytmusic <--
    (if path_exists cwd (Path auth_file) then
       say ("Using authentication from " ++ auth_file) ;;;
       new_client (Some auth_file)
     else
       say "No authentication file found. Using public access (limited features)" ;;;
       new_client None) ;;;
  try_except_Exception
    (say (nl ++ "Searching for 'Blinding Lights'..." ++ nl) ;;;
     results <-- client_search ytmusic "Blinding Lights" "songs" ;;;
     match results with
     | _ :: _ =>
         say ("Found " ++ str_int (len results) ++ " results:" ++ nl) ;;;
         for_in (enumerate (firstn 5 results) 1)
           (fun '(i, song) => line <-- lift (song_line i song) ;;; say line)
     | [] => say "No results found"
     end)
    (fun e =>
       say (nl ++ "Error: " ++ str_exc e) ;;;
       say (nl ++ "If you need full API access, you may need to set up authentication.") ;;;
       say "Run setup_auth.py for instructions.").

Definition setup_banner : list string :=
  [ str_repeat "=" 60;
    "YouTube Music API - Authentication Setup";
    str_repeat "=" 60;
    nl ++ "Follow these steps to get your request headers:" ++ nl;
    "1. Open YouTube Music (music.youtube.com) in your browser";
    "2. Open Developer Tools (F12)";
    "3. Go to the 'Network' tab";
    "4. Click on a song or navigate around YouTube Music";
    "5. Find a request to 'music.youtube.com' in the Network tab";
    "6. Right-click on it → Copy → Copy as cURL (bash)";
    "7. Paste the entire cURL command below" ++ nl;
    str_repeat "-" 60;
    nl ++ "NOTE: For testing, you can use YTMusic without authentication.";
    "Creating a basic auth file for testing..." ++ nl ].

Definition setup_auth_py : S unit :=
  for_in setup_banner say ;;;
  try_except_Exception
    (new_client None ;;;
     say "✓ Created basic YTMusic instance (no authentication)" ;;;
     say "✓ You can use search and some other features" ;;;
     say (nl ++ "If you need full features (playlists, library access),") ;;;
     say "you'll need to provide authentication headers manually.")
    (fun e => say ("Error: " ++ str_exc e)) ;;;
  say (nl ++ str_repeat "=" 60).

(** What the loop of [test.py] prints for a list of numbered songs: the
    lines up to the first song whose line cannot be made, and the
    exception that song raises, if there is one. *)
Fixpoint listing (items : list (Z * value)) : list string * option pyexc :=
  match items with
  | [] => ([], None)
  | (i, song) :: rest =>
      match song_line i song with
      | Throw e => ([], Some e)
      | Done line =>
          let (lines, stop) := listing rest in (line :: lines, stop)
      end
  end.

(** The client [test.py] asks for. *)
Definition chosen_auth : option string :=
  if path_exists cwd (Path "headers_auth.json")
  then Some "headers_auth.json" else None.

Definition auth_line : string :=
  match chosen_auth with
  | Some auth_file => "Using authentication from " ++ auth_file
  | None => "No authentication file found. Using public access (limited features)"
  end.

Definition opening_lines : list string :=
  [ "Testing YouTube Music API..." ++ nl; auth_line ].

Definition searching_line : string :=
  nl ++ "Searching for 'Blinding Lights'..." ++ nl.

Definition found_results_line (results : list value) : string :=
  "Found " ++ str_int (len results) ++ " results:" ++ nl.

(** How the interpreter ends a script: normally, or with the traceback
    of an exception nothing caught. *)
Inductive ending :=
  | Finished
  | Crashed (e : pyexc).

Definition run (script : S unit) (s : session) : ending * session :=
  match script s with
  | (Done _, s') => (Finished, s')
  | (Throw e, s') => (Crashed e, s')
  end.

End Scripts.

(** ** Sample library behaviour *)

Definition blinding_lights : value :=
  VDict [ ("title", VStr "Blinding Lights");
          ("artists", VList [VDict [("name", VStr "The Weeknd")]]);
          ("duration", VStr "3:20") ].

(** A song without any of the keys the script reads. *)
Definition bare_song : value := VDict [("videoId", VStr "4NRXx6U8ABQ")].

(** A song whose three fields are there and null. *)
Definition null_song : value :=
  VDict [ ("title", VNone); ("artists", VNone); ("duration", VNone) ].

(** A song whose artists entry is a string, not a list. *)
Definition odd_song : value :=
  VDict [ ("title", VStr "Blinding Lights"); ("artists", VStr "The Weeknd") ].

(** A library whose search returns seven songs. *)
Definition lib_seven : ytmusicapi :=
  {| YTMusic := fun _ => None;
     search := fun _ _ _ =>
       inl [ blinding_lights; bare_song; null_song; blinding_lights;
             bare_song; blinding_lights; blinding_lights ] |}.

(** A library whose search returns a malformed third song. *)
Definition lib_odd : ytmusicapi :=
  {| YTMusic := fun _ => None;
     search := fun _ _ _ => inl [ blinding_lights; bare_song; odd_song;
                                  blinding_lights ] |}.

(** A library that cannot make a client. *)
Definition lib_offline : ytmusicapi :=
  {| YTMusic := fun _ =>
       Some (mkError OSError "[Errno 101] Network is unreachable" eq_refl);
     search := fun _ _ _ => inl [] |}.

Definition no_repr : value -> string := fun _ => "".

Definition fresh : session := mkSession [] [].

End YTMusicScripts.

(** * A console that can refuse a line, an output that cannot be decoded

    [print] writes through the encoding of standard output and raises
    [UnicodeEncodeError] for a text that encoding cannot represent;
    [subprocess.run] with [text=True] decodes what it captured and raises
    [UnicodeDecodeError] when it cannot.  The model above leaves both
    failures out.  This module keeps them, to settle what
    [convert_audio_file] lets through to its caller: the function is
    embedded again, from the same source lines, over these two
    primitives. *)

Module StrictIO.

Inductive cls :=
  | Std (c : exn_class)
  | UnicodeError
  | UnicodeEncodeError
  | UnicodeDecodeError.

Definition cls_base (c : cls) : option cls :=
  match c with
  | Std c => option_map Std (base c)
  | UnicodeError => Some (Std ValueError)
  | UnicodeEncodeError | UnicodeDecodeError => Some UnicodeError
  end.

Definition cls_eqb (c d : cls) : bool :=
  match c, d with
  | Std c, Std d => exn_class_eqb c d
  | UnicodeError, UnicodeError
  | UnicodeEncodeError, UnicodeEncodeError
  | UnicodeDecodeError, UnicodeDecodeError => true
  | _, _ => false
  end.

(** From [UnicodeEncodeError] up to [BaseException] there are four
    steps. *)
Fixpoint subclass_upto (n : nat) (c d : cls) : bool :=
  cls_eqb c d
  || match n with
     | O => false
     | Datatypes.S n' =>
         match cls_base c with
         | Some b => subclass_upto n' b d
         | None => false
         end
     end.

Definition subclass : cls -> cls -> bool := subclass_upto 4.

Record raised := mkRaised { raised_cls : cls; raised_str : string }.

Definition instance_of (e : raised) (c : exn_class) : bool :=
  subclass (raised_cls e) (Std c).

Inductive res (A : Type) :=
  | Ok (a : A)
  | Err (e : raised).
Arguments Ok {A} a.
Arguments Err {A} e.

Definition IO (A : Type) : Type := world -> res A * world.

Definition pure {A : Type} (a : A) : IO A := fun w => (Ok a, w).

Definition seq {A B : Type} (m : IO A) (k : A -> IO B) : IO B :=
  fun w =>
    match m w with
    | (Ok a, w') => k a w'
    | (Err e, w') => (Err e, w')
    end.

Declare Scope io_scope.
Delimit Scope io_scope with io.
Notation "x <- m ;; k" := (seq m (fun x => k))
  (at level 61, m at next level, right associativity) : io_scope.
Notation "m ;; k" := (seq m (fun _ => k))
  (at level 61, right associativity) : io_scope.
Local Open Scope io_scope.

Fixpoint dispatch {A : Type} (handlers : list (exn_class * (raised -> IO A)))
  (e : raised) : IO A :=
  match handlers with
  | [] => fun w => (Err e, w)
  | (c, h) :: handlers' =>
      if instance_of e c then h e else dispatch handlers' e
  end.

(** An exception raised inside a handler is not offered to the clauses
    of the same [try]: it propagates. *)
Definition try_except {A : Type} (body : IO A)
  (handlers : list (exn_class * (raised -> IO A))) : IO A :=
  fun w =>
    match body w with
    | (Ok a, w') => (Ok a, w')
    | (Err e, w') => dispatch handlers e w'
    end.

Fixpoint for_each {A T : Type} (xs : list A) (body : A -> T -> IO T) (acc : T)
  : IO T :=
  match xs with
  | [] => pure acc
  | x :: xs' => acc' <- body x acc ;; for_each xs' body acc'
  end.

Section Script.

(** The console: [None] when it writes the line, the text of the
    [UnicodeEncodeError] when it cannot encode it. *)
Variable console_refuses : string -> option string.

(** The decoder of captured output: [None] when the bytes decode, the
    text of the [UnicodeDecodeError] when they do not. *)
Variable decode_fails : string -> option string.

Variable fl : flavour.
Variable env : environment.

Definition print (s : string) : IO unit :=
  fun w =>
    match console_refuses s with
    | None => (Ok tt, mkWorld (fs w) (console w ++ [s]) (spawned w))
    | Some text => (Err (mkRaised UnicodeEncodeError text), w)
    end.

Definition subprocess_run (cmd : list string) (capture_output text : bool)
  (timeout : Q) : IO CompletedProcess :=
  fun w =>
    let w' := mkWorld (fs w) (console w)
                (spawned w ++ [mkInvocation cmd capture_output text timeout]) in
    let timed_out := mkRaised (Std TimeoutExpired) "Command timed out" in
    match env cmd with
    | Fails e => (Err (mkRaised (Std (err_cls e)) (err_str e)), w')
    | Exits seconds status out err =>
        if Qle_bool seconds timeout then
          if capture_output then
            if text then
              match decode_fails out, decode_fails err with
              | None, None => (Ok (mkCompleted status out err), w')
              | Some why, _ | None, Some why =>
                  (Err (mkRaised UnicodeDecodeError why), w')
              end
            else (Ok (mkCompleted status out err), w')
          else (Ok (mkCompleted status "" ""), w')
        else (Err timed_out, w')
    | Hangs => (Err timed_out, w')
    end.

Definition convert_audio_file (input_path output_path : path) : IO bool :=
  print ("Converting: " ++ name input_path) ;;
  try_except
    (let cmd := ffmpeg_cmd fl input_path output_path in
     result <- subprocess_run cmd true true 60 ;;
     if (returncode result =? 0)%Z then
       print msg_converted ;;
       pure true
     else
       print (msg_ffmpeg_error (stderr result)) ;;
       pure false)
    [ (TimeoutExpired, fun _ => print msg_timed_out ;; pure false);
      (FileNotFoundError, fun _ => print msg_not_found ;; pure false);
      (Exception,
       fun e => print ("  ✗ Error: " ++ raised_str e) ;; pure false) ].

Definition convert_and_count (output_dir : path) (mp3_file : path)
  (success_count : Z) : IO Z :=
  let output_path := joinpath output_dir (name mp3_file) in
  ok <- convert_audio_file mp3_file output_path ;;
  if ok then pure (success_count + 1)%Z else pure success_count.

(** What the call of [subprocess.run] in [convert_audio_file] comes to,
    read off the behaviour of the program. *)
Definition invocation_result (b : proc_behaviour) : res CompletedProcess :=
  match b with
  | Fails e => Err (mkRaised (Std (err_cls e)) (err_str e))
  | Exits seconds status out err =>
      if Qle_bool seconds 60 then
        match decode_fails out, decode_fails err with
        | None, None => Ok (mkCompleted status out err)
        | Some why, _ | None, Some why => Err (mkRaised UnicodeDecodeError why)
        end
      else Err (mkRaised (Std TimeoutExpired) "Command timed out")
  | Hangs => Err (mkRaised (Std TimeoutExpired) "Command timed out")
  end.

(** The outcome line the function tries to print first. *)
Definition first_line (b : proc_behaviour) : string :=
  match invocation_result b with
  | Ok result =>
      if (returncode result =? 0)%Z then "  ✓ Converted successfully"
      else "  ✗ ffmpeg error: " ++ stderr result
  | Err e =>
      if instance_of e TimeoutExpired then "  ✗ Conversion timed out"
      else if instance_of e FileNotFoundError then
        "  ✗ ffmpeg not found. Make sure ffmpeg.exe is in your PATH or in the current directory"
      else "  ✗ Error: " ++ raised_str e
  end.

(** The program exited in time with status 0 and its output decoded. *)
Definition completes_cleanly (b : proc_behaviour) : bool :=
  match invocation_result b with
  | Ok result => (returncode result =? 0)%Z
  | Err _ => false
  end.

End Script.

(** ** Sample consoles and decoders *)

Definition accepts_all : string -> option string := fun _ => None.




End StrictIO.

(** * Properties *)

(** ** Paths *)

Lemma list_eqb_spec {A : Type} (eqb : A -> A -> bool) :
  (forall x y, eqb x y = true <-> x = y) ->
  forall l1 l2, list_eqb eqb l1 l2 = true <-> l1 = l2.
Proof.
  intros Heq l1; induction l1 as [|x l1 IH]; intros [|y l2]; simpl;
    try (split; [discriminate | discriminate]); try tauto.
  rewrite andb_true_iff, Heq, IH. split.
  - intros [-> ->]; reflexivity.
  - intros E; injection E; auto.
Qed.

Lemma path_eqb_eq p q : path_eqb p q = true <-> p = q.
Proof. apply list_eqb_spec, String.eqb_eq. Qed.

Lemma name_joinpath p c : name (joinpath p c) = c.
Proof. unfold name, joinpath. apply last_last. Qed.

Lemma parent_joinpath p c : parent (joinpath p c) = p.
Proof. unfold parent, joinpath. apply removelast_last. Qed.

(** ** Exception classes *)

Lemma isinstance_error e : isinstance (exn_of_error e) Exception = true.
Proof. destruct e as [c s H]; exact H. Qed.

(** ** One conversion *)

Section Conversion.

Variable fl : flavour.
Variable env : environment.

Lemma convert_audio_file_spec input_path output_path w :
  let b := env (ffmpeg_cmd fl input_path output_path) in
  convert_audio_file fl env input_path output_path w =
  (Ret (tool_succeeds b),
   mkWorld (fs w)
     (console w ++ [("Converting: " ++ name input_path)%string; outcome_line b])
     (spawned w ++ [attempt fl input_path output_path])).
Proof.
  intros b. unfold convert_audio_file, bind, try_except, print, subprocess_run.
  cbn [fs console spawned]. fold b.
  destruct b as [e | seconds status out err | ]; cbn [tool_succeeds outcome_line].
  - cbn [dispatch]. unfold attempt.
    destruct (isinstance (exn_of_error e) TimeoutExpired) eqn:Ht.
    + unfold bind, print, ret; cbn. rewrite <- app_assoc. reflexivity.
    + destruct (isinstance (exn_of_error e) FileNotFoundError) eqn:Hn.
      * unfold bind, print, ret; cbn. rewrite <- app_assoc. reflexivity.
      * rewrite isinstance_error. unfold bind, print, ret; cbn.
        rewrite <- app_assoc. reflexivity.
  - destruct (Qle_bool seconds 60) eqn:Hs; cbn.
    + destruct (status =? 0)%Z; unfold bind, print, ret; cbn;
        rewrite <- app_assoc; reflexivity.
    + rewrite <- app_assoc. reflexivity.
  - cbn. rewrite <- app_assoc. reflexivity.
Qed.

End Conversion.

(** ** Creating the destination directory *)

Lemma entry_app fs1 fs2 p :
  entry (fs1 ++ fs2) p =
  match entry fs1 p with
  | Some k => Some k
  | None => entry fs2 p
  end.
Proof.
  induction fs1 as [|[q k] fs1 IH]; simpl; [reflexivity|].
  destruct (path_eqb q p); [reflexivity | exact IH].
Qed.

Lemma mkdir_destination fl fs :
  destination_free fs = true ->
  path_mkdir fl fs (Path "public/music") true true = Ret (fs ++ made_dirs fs).
Proof.
  unfold destination_free, no_file_at, made_dirs. intros H.
  apply andb_true_iff in H. destruct H as [Hp Hm].
  unfold path_mkdir.
  change (Path "public/music") with ["public"; "music"].
  destruct (entry fs ["public"]) as [[|]|] eqn:Ep; try discriminate Hp;
  destruct (entry fs ["public"; "music"]) as [[|]|] eqn:Em; try discriminate Hm;
    cbn; unfold os_mkdir, is_dir, stat; cbn;
    repeat (rewrite ?Ep, ?Em, ?entry_app; cbn);
    rewrite ?app_nil_r, <- ?app_assoc; reflexivity.
Qed.

Lemma is_dir_after_mkdir fs p :
  destination_free fs = true ->
  p = ["public"] \/ p = ["public"; "music"] ->
  is_dir (fs ++ made_dirs fs) p = true.
Proof.
  unfold destination_free, no_file_at, made_dirs, is_dir, stat. intros H Hp.
  apply andb_true_iff in H. destruct H as [H1 H2].
  destruct (entry fs ["public"]) as [[|]|] eqn:Ep; try discriminate H1;
  destruct (entry fs ["public"; "music"]) as [[|]|] eqn:Em; try discriminate H2;
    destruct Hp as [-> | ->]; cbn;
    repeat (rewrite ?Ep, ?Em, ?entry_app; cbn); reflexivity.
Qed.

(** Making the destination leaves the listing of the source directory as
    it was. *)
Lemma glob_music_after_mkdir fl fs pattern :
  glob fl (fs ++ made_dirs fs) (Path "music") pattern =
  glob fl fs (Path "music") pattern.
Proof.
  change (Path "music") with ["music"].
  unfold glob, is_dir, stat. cbn. rewrite entry_app.
  assert (Hnone : entry (made_dirs fs) ["music"] = None).
  { unfold made_dirs.
    destruct (entry fs ["public"]); destruct (entry fs ["public"; "music"]);
      reflexivity. }
  rewrite Hnone.
  assert (Hfilter :
    filter (fun p => is_child ["music"] p && fnmatch fl pattern (name p))
      (map fst (made_dirs fs)) = []).
  { unfold made_dirs.
    destruct (entry fs ["public"]); destruct (entry fs ["public"; "music"]);
      reflexivity. }
  rewrite map_app, filter_app, Hfilter, app_nil_r.
  destruct (entry fs ["music"]) as [[|]|]; reflexivity.
Qed.

(** ** The loop over the discovered files *)

Section Run.

Variable fl : flavour.
Variable env : environment.

Lemma convert_and_count_spec output_dir mp3_file c w :
  convert_and_count fl env output_dir mp3_file c w =
  (Ret (if converts fl env output_dir mp3_file then c + 1 else c)%Z,
   mkWorld (fs w)
     (console w ++ lines_for fl env output_dir mp3_file)
     (spawned w ++ [call_for fl output_dir mp3_file])).
Proof.
  unfold convert_and_count, bind. rewrite convert_audio_file_spec.
  unfold converts, lines_for, call_for, target.
  destruct (tool_succeeds _); reflexivity.
Qed.

Lemma len_cons {A : Type} (x : A) l : len (x :: l) = (1 + len l)%Z.
Proof. unfold len. cbn [List.length]. lia. Qed.

Lemma len_nonneg {A : Type} (l : list A) : (0 <= len l)%Z.
Proof. unfold len. lia. Qed.

Lemma len_filter_le {A : Type} (f : A -> bool) l : (len (filter f l) <= len l)%Z.
Proof. unfold len. pose proof (filter_length_le f l). lia. Qed.

Lemma for_each_convert_spec output_dir files c w :
  for_each files (convert_and_count fl env output_dir) c w =
  (Ret (c + len (filter (converts fl env output_dir) files))%Z,
   mkWorld (fs w)
     (console w ++ flat_map (lines_for fl env output_dir) files)
     (spawned w ++ map (call_for fl output_dir) files)).
Proof.
  revert c w. induction files as [|f files IH]; intros c w.
  - cbn. unfold ret. rewrite !app_nil_r, Z.add_0_r. destruct w; reflexivity.
  - cbn [for_each]. unfold bind at 1. rewrite convert_and_count_spec, IH.
    cbn [fs console spawned filter flat_map map].
    f_equal.
    + f_equal. destruct (converts fl env output_dir f); rewrite ?len_cons; lia.
    + rewrite <- !app_assoc. reflexivity.
Qed.

(** ** A whole run *)

(** The run stopped by a missing source directory. *)
Lemma main_no_source w :
  path_exists (fs w) (Path "music") = false ->
  main fl env w =
  (Raise (system_exit 1),
   mkWorld (fs w)
     (console w ++ [("ERROR: " ++ str_path fl (Path "music")
                     ++ " directory not found")%string])
     (spawned w)).
Proof.
  intros H. unfold main, bind, exists_. cbn [fs]. rewrite H. reflexivity.
Qed.

(** The run stopped because the destination cannot be made. *)
Lemma main_mkdir_raises w e :
  path_exists (fs w) (Path "music") = true ->
  path_mkdir fl (fs w) (Path "public/music") true true = Raise e ->
  main fl env w = (Raise e, w).
Proof.
  intros H Hm. unfold main, bind, exists_, mkdir. cbn [fs]. rewrite H.
  cbn [negb ret]. rewrite Hm. reflexivity.
Qed.

(** The run past the creation of the destination. *)
Lemma main_after_mkdir w fs' :
  path_exists (fs w) (Path "music") = true ->
  path_mkdir fl (fs w) (Path "public/music") true true = Ret fs' ->
  let files := glob fl fs' (Path "music") "*.mp3" in
  let good := len (filter (converts fl env (Path "public/music")) files) in
  main fl env w =
  match files with
  | [] =>
      (Raise (system_exit 1),
       mkWorld fs'
         (console w ++ [("No MP3 files found in "
                         ++ str_path fl (Path "music"))%string])
         (spawned w))
  | _ =>
      ((if (good <? len files)%Z then Raise (system_exit 1) else Ret tt),
       mkWorld fs'
         (console w ++ [found_line files]
          ++ flat_map (lines_for fl env (Path "public/music")) files
          ++ [(nl ++ rule)%string; msg_summary good (len files); rule]
          ++ (if (good <? len files)%Z then [warning_line] else []))
         (spawned w ++ map (call_for fl (Path "public/music")) files))
  end.
Proof.
  intros H Hm files good. unfold main, bind, exists_. cbn [fs]. rewrite H.
  cbn [negb ret]. unfold mkdir. rewrite Hm. unfold glob_. cbn [fs].
  fold files. destruct files as [|f files'] eqn:Ef.
  - reflexivity.
  - cbn [ret]. unfold print at 1. cbn [fs console spawned].
    rewrite for_each_convert_spec. cbn [fs console spawned].
    rewrite Z.add_0_l. fold good.
    unfold print at 1 2 3. cbn [fs console spawned].
    destruct (good <? len (f :: files'))%Z.
    + unfold print, sys_exit, raise, system_exit. cbn [fs console spawned].
      rewrite <- !app_assoc. reflexivity.
    + unfold ret. rewrite app_nil_r, <- !app_assoc. reflexivity.
Qed.

End Run.

(** With a regular file in the way, [mkdir] raises an [OSError]. *)
Lemma mkdir_blocked fl fs :
  destination_free fs = false ->
  exists e,
    path_mkdir fl fs (Path "public/music") true true = Raise e
    /\ exn_class_eqb (exn_cls e) SystemExit = false.
Proof.
  unfold destination_free, no_file_at. intros H.
  unfold path_mkdir.
  change (Path "public/music") with ["public"; "music"].
  destruct (entry fs ["public"]) as [[|]|] eqn:Ep;
  destruct (entry fs ["public"; "music"]) as [[|]|] eqn:Em;
    try discriminate H;
    cbn; unfold os_mkdir, is_dir, stat; cbn;
    repeat (rewrite ?Ep, ?Em, ?entry_app; cbn);
    eexists; split; reflexivity.
Qed.

Section Runs.

Variable fl : flavour.
Variable env : environment.

(** A run that reaches the loop: the source directory exists, the
    destination can be made, and at least one file matches. *)
Lemma run_script_converts w files :
  path_exists (fs w) (Path "music") = true ->
  destination_free (fs w) = true ->
  glob fl (fs w) (Path "music") "*.mp3" = files ->
  files <> [] ->
  let good := len (filter (converts fl env (Path "public/music")) files) in
  run_script fl env w =
  (Exited (if (good <? len files)%Z then 1 else 0),
   mkWorld (fs w ++ made_dirs (fs w))
     (console w ++ [found_line files]
      ++ flat_map (lines_for fl env (Path "public/music")) files
      ++ [(nl ++ rule)%string; msg_summary good (len files); rule]
      ++ (if (good <? len files)%Z then [warning_line] else []))
     (spawned w ++ map (call_for fl (Path "public/music")) files)).
Proof.
  intros Hsrc Hfree Hglob Hne good. unfold run_script.
  rewrite (main_after_mkdir fl env w _ Hsrc (mkdir_destination fl _ Hfree)).
  rewrite glob_music_after_mkdir, Hglob. fold good.
  destruct files as [|f files']; [contradiction Hne; reflexivity|].
  destruct (good <? len (f :: files'))%Z; reflexivity.
Qed.

(** A run that finds no matching file, the destination made. *)
Lemma run_script_no_files w :
  path_exists (fs w) (Path "music") = true ->
  destination_free (fs w) = true ->
  glob fl (fs w) (Path "music") "*.mp3" = [] ->
  run_script fl env w =
  (Exited 1,
   mkWorld (fs w ++ made_dirs (fs w))
     (console w ++ [("No MP3 files found in "
                     ++ str_path fl (Path "music"))%string])
     (spawned w)).
Proof.
  intros Hsrc Hfree Hglob. unfold run_script.
  rewrite (main_after_mkdir fl env w _ Hsrc (mkdir_destination fl _ Hfree)).
  rewrite glob_music_after_mkdir, Hglob. reflexivity.
Qed.

(** A run stopped by [mkdir]: a traceback, and nothing done. *)
Lemma run_script_blocked w :
  path_exists (fs w) (Path "music") = true ->
  destination_free (fs w) = false ->
  exists e, run_script fl env w = (Traceback e, w).
Proof.
  intros Hsrc Hfree.
  destruct (mkdir_blocked fl _ Hfree) as (e & Hm & Hcls).
  exists e. unfold run_script.
  rewrite (main_mkdir_raises fl env w e Hsrc Hm), Hcls. reflexivity.
Qed.

End Runs.

(** ** Counting *)

Lemma len_app {A : Type} (l1 l2 : list A) : len (l1 ++ l2) = (len l1 + len l2)%Z.
Proof. unfold len. rewrite length_app. lia. Qed.

Lemma len_filter_split {A : Type} (f : A -> bool) l :
  (len (filter f l) + len (filter (fun x => negb (f x)) l))%Z = len l.
Proof.
  induction l as [|x l IH]; [reflexivity|].
  cbn [filter]. destruct (f x); cbn [negb]; rewrite !len_cons; lia.
Qed.

Lemma filter_all {A : Type} (f : A -> bool) l :
  (forall x, In x l -> f x = true) -> filter f l = l.
Proof.
  induction l as [|x l IH]; intros H; [reflexivity|].
  cbn [filter]. rewrite (H x (or_introl eq_refl)).
  f_equal. apply IH. intros y Hy. apply H. right; exact Hy.
Qed.

Lemma filter_none {A : Type} (f : A -> bool) l :
  (forall x, In x l -> f x = false) -> filter f l = [].
Proof.
  induction l as [|x l IH]; intros H; [reflexivity|].
  cbn [filter]. rewrite (H x (or_introl eq_refl)).
  apply IH. intros y Hy. apply H. right; exact Hy.
Qed.

Lemma flat_map_ext_in {A B : Type} (f g : A -> list B) l :
  (forall x, In x l -> f x = g x) -> flat_map f l = flat_map g l.
Proof.
  induction l as [|x l IH]; intros H; [reflexivity|].
  cbn [flat_map]. rewrite (H x (or_introl eq_refl)).
  f_equal. apply IH. intros y Hy. apply H. right; exact Hy.
Qed.

(** ** The model on small inputs *)

Example Path_public_music : Path "public/music" = ["public"; "music"].
Proof. reflexivity. Qed.

Example str_path_windows :
  str_path Windows (Path "public/music") = "public\music".
Proof. reflexivity. Qed.

Example fnmatch_is_case_sensitive_on_posix :
  fnmatch Posix "*.mp3" "a.MP3" = false /\ fnmatch Windows "*.mp3" "a.MP3" = true.
Proof. split; reflexivity. Qed.

Example glob_sample : glob Posix sample_fs (Path "music") "*.mp3" = sample_files.
Proof. reflexivity. Qed.

Example mkdir_from_nothing :
  path_mkdir Posix [] (Path "public/music") true true
  = Ret [(["public"], Directory); (["public"; "music"], Directory)].
Proof. reflexivity. Qed.

Example mkdir_without_parents_raises :
  path_mkdir Posix [] (Path "public/music") false true
  = Raise (os_error FileNotFoundError "public/music").
Proof. reflexivity. Qed.

Example mkdir_blocked_by_a_file :
  path_mkdir Posix [(["public"], RegularFile)] (Path "public/music") true true
  = Raise (os_error NotADirectoryError "public/music").
Proof. reflexivity. Qed.

Example sample_run_console :
  console (snd (run_script Posix env_rejects_b sample_world))
  = [ ("Found 3 MP3 files" ++ nl)%string;
      "Converting: a.mp3"; msg_converted;
      "Converting: b.mp3";
      msg_ffmpeg_error "Invalid data found when processing input";
      "Converting: c.mp3"; msg_converted;
      (nl ++ rule)%string;
      "Conversion complete: 2/3 successful";
      rule;
      warning_line ].
Proof. reflexivity. Qed.

(** ** The claims *)

(** C1.  In a run over N matching files of which K fail, K at least one,
    every one of the N conversions is still attempted, in order; the
    summary line reads "<N-K>/N successful"; and the process exits with
    status 1. *)
Theorem partial_failure_attempts_all fl env w files K :
  path_exists (fs w) (Path "music") = true ->
  destination_free (fs w) = true ->
  glob fl (fs w) (Path "music") "*.mp3" = files ->
  K = len (filter (fun f => negb (converts fl env (Path "public/music") f)) files) ->
  (0 < K)%Z ->
  exists w',
    run_script fl env w = (Exited 1, w')
    /\ spawned w' = spawned w ++ map (call_for fl (Path "public/music")) files
    /\ In ("Conversion complete: " ++ str_int (len files - K) ++ "/"
           ++ str_int (len files) ++ " successful")%string (console w').
Proof.
  intros Hsrc Hfree Hglob HK Hpos.
  pose proof (len_filter_split (converts fl env (Path "public/music")) files) as Hsplit.
  assert (Hne : files <> []).
  { intros ->. cbn in HK. subst K. discriminate Hpos. }
  rewrite (run_script_converts fl env w files Hsrc Hfree Hglob Hne).
  set (good := len (filter (converts fl env (Path "public/music")) files)) in *.
  assert (Hgood : good = (len files - K)%Z) by lia.
  assert (Hlt : (good <? len files)%Z = true) by (apply Z.ltb_lt; lia).
  rewrite Hlt. eexists. split; [reflexivity|]. split; [reflexivity|].
  cbn [console]. rewrite <- Hgood.
  rewrite !in_app_iff. right; right; right; left.
  simpl. right; left; reflexivity.
Qed.

Lemma partial_failure_attempts_all_witness :
  exists w',
    run_script Posix env_rejects_b sample_world = (Exited 1, w')
    /\ spawned w' =
       spawned sample_world
       ++ map (call_for Posix (Path "public/music")) sample_files
    /\ In "Conversion complete: 2/3 successful" (console w').
Proof.
  apply (partial_failure_attempts_all Posix env_rejects_b sample_world
           sample_files 1%Z); reflexivity.
Defined.

(** C2.  The tally invariant.  The counter starts at zero; after any
    number of the discovered files it lies between zero and the number of
    files done, which is at most the number discovered; and one more file
    adds at most one to it. *)
Theorem tally_invariant fl env output_dir (done rest : list path) w :
  exists success_count w',
    for_each done (convert_and_count fl env output_dir) 0%Z w
    = (Ret success_count, w')
    /\ (0 <= success_count <= len done)%Z
    /\ (len done <= len (done ++ rest))%Z
    /\ (done = [] -> success_count = 0%Z)
    /\ forall next, exists success_count' w'',
         for_each (done ++ [next]) (convert_and_count fl env output_dir) 0%Z w
         = (Ret success_count', w'')
         /\ (success_count <= success_count' <= success_count + 1)%Z.
Proof.
  rewrite for_each_convert_spec. do 2 eexists. split; [reflexivity|].
  pose proof (len_filter_le (converts fl env output_dir) done) as Hle.
  pose proof (len_nonneg (filter (converts fl env output_dir) done)) as H0.
  split; [lia|]. split; [rewrite len_app; pose proof (len_nonneg rest); lia|].
  split; [intros ->; reflexivity|].
  intros next. rewrite for_each_convert_spec. do 2 eexists.
  split; [reflexivity|].
  rewrite filter_app, len_app. cbn [filter].
  destruct (converts fl env output_dir next); cbn; lia.
Qed.

(** C3.  Without the source directory the process exits with status 1,
    the file system is left as it was (no output directory is made) and no
    conversion is attempted. *)
Theorem missing_source_aborts_first fl env w :
  path_exists (fs w) (Path "music") = false ->
  exists w',
    run_script fl env w = (Exited 1, w')
    /\ fs w' = fs w
    /\ spawned w' = spawned w.
Proof.
  intros H. unfold run_script. rewrite (main_no_source fl env w H).
  eexists. repeat split.
Qed.

Lemma missing_source_aborts_first_witness :
  exists w',
    run_script Windows env_ok world_no_source = (Exited 1, w')
    /\ fs w' = fs world_no_source
    /\ spawned w' = spawned world_no_source.
Proof.
  apply (missing_source_aborts_first Windows env_ok world_no_source).
  reflexivity.
Defined.

(** C4.  With the source directory there and no file matching [*.mp3],
    the process exits with a non-zero status and no conversion is
    attempted. *)
Theorem no_matching_files_exits_nonzero fl env w :
  path_exists (fs w) (Path "music") = true ->
  glob fl (fs w) (Path "music") "*.mp3" = [] ->
  exists t w',
    run_script fl env w = (t, w')
    /\ exit_status t = 1%Z
    /\ spawned w' = spawned w.
Proof.
  intros Hsrc Hglob.
  destruct (destination_free (fs w)) eqn:Hfree.
  - rewrite (run_script_no_files fl env w Hsrc Hfree Hglob).
    do 2 eexists. repeat split.
  - destruct (run_script_blocked fl env w Hsrc Hfree) as [e He].
    rewrite He. do 2 eexists. repeat split.
Qed.

Lemma no_matching_files_exits_nonzero_witness :
  exists t w',
    run_script Posix env_ok world_no_mp3 = (t, w')
    /\ exit_status t = 1%Z
    /\ spawned w' = spawned world_no_mp3.
Proof.
  apply (no_matching_files_exits_nonzero Posix env_ok world_no_mp3);
    reflexivity.
Defined.

(** C5.  When every one of the N matching files converts, N at least
    one, the process exits with status 0, and the output path handed to
    the tool for each file is the file's own name under [public/music]. *)
Theorem all_converted_exits_zero fl env w files :
  path_exists (fs w) (Path "music") = true ->
  destination_free (fs w) = true ->
  glob fl (fs w) (Path "music") "*.mp3" = files ->
  files <> [] ->
  (forall f, In f files -> converts fl env (Path "public/music") f = true) ->
  exists w',
    run_script fl env w = (Exited 0, w')
    /\ spawned w' =
       spawned w
       ++ map (fun f => attempt fl f (["public"; "music"] ++ [name f])) files
    /\ forall f, name (["public"; "music"] ++ [name f]) = name f
                 /\ parent (["public"; "music"] ++ [name f]) = ["public"; "music"].
Proof.
  intros Hsrc Hfree Hglob Hne Hall.
  rewrite (run_script_converts fl env w files Hsrc Hfree Hglob Hne).
  rewrite (filter_all _ _ Hall), Z.ltb_irrefl.
  eexists. split; [reflexivity|]. split; [reflexivity|].
  intros f. split.
  - apply (name_joinpath ["public"; "music"]).
  - apply (parent_joinpath ["public"; "music"]).
Qed.

Lemma all_converted_exits_zero_witness :
  exists w',
    run_script Posix env_ok sample_world = (Exited 0, w')
    /\ spawned w' =
       spawned sample_world
       ++ map (fun f => attempt Posix f (["public"; "music"] ++ [name f]))
            sample_files
    /\ forall f, name (["public"; "music"] ++ [name f]) = name f
                 /\ parent (["public"; "music"] ++ [name f]) = ["public"; "music"].
Proof.
  apply (all_converted_exits_zero Posix env_ok sample_world sample_files);
    [ reflexivity | reflexivity | reflexivity | discriminate
    | intros f _; reflexivity ].
Defined.

(** C6.  Every conversion calls [ffmpeg.exe] with the input path, sample
    rate 44100, two channels, bitrate 192k, the overwrite flag and the
    output path, and nothing else; when the tool comes back with a status,
    the conversion is a success exactly when that status is 0, and with
    any other status the tool's error stream, captured, is printed. *)
Theorem ffmpeg_invocation_contract fl env input_path output_path w :
  let cmd :=
    [ "ffmpeg.exe"; "-i"; str_path fl input_path; "-ar"; "44100"; "-ac"; "2";
      "-b:a"; "192k"; "-y"; str_path fl output_path ] in
  exists ok w',
    convert_audio_file fl env input_path output_path w = (Ret ok, w')
    /\ spawned w' = spawned w ++ [mkInvocation cmd true true 60]
    /\ forall seconds status out err,
         env cmd = Exits seconds status out err ->
         Qle_bool seconds 60 = true ->
         (ok = true <-> status = 0%Z)
         /\ (status <> 0%Z ->
             console w' =
             console w ++ [("Converting: " ++ name input_path)%string;
                           ("  ✗ ffmpeg error: " ++ err)%string]).
Proof.
  intros cmd. rewrite convert_audio_file_spec. do 2 eexists.
  split; [reflexivity|]. split; [reflexivity|].
  intros seconds status out err Henv Hfast.
  change (ffmpeg_cmd fl input_path output_path) with cmd.
  rewrite Henv. cbn [tool_succeeds outcome_line console]. rewrite Hfast.
  cbn [andb]. split.
  - apply Z.eqb_eq.
  - intros Hne. apply Z.eqb_neq in Hne. rewrite Hne. reflexivity.
Qed.

Lemma ffmpeg_invocation_contract_witness :
  exists ok w',
    convert_audio_file Posix env_rejects_b
      ["music"; "b.mp3"] ["public"; "music"; "b.mp3"] sample_world
    = (Ret ok, w')
    /\ (ok = true <-> 1%Z = 0%Z)
    /\ console w' =
       [ "Converting: b.mp3";
         "  ✗ ffmpeg error: Invalid data found when processing input" ].
Proof.
  destruct (ffmpeg_invocation_contract Posix env_rejects_b
              ["music"; "b.mp3"] ["public"; "music"; "b.mp3"] sample_world)
    as (ok & w' & Hrun & _ & Hclass).
  exists ok, w'. split; [exact Hrun|].
  destruct (Hclass 1%Q 1%Z "" "Invalid data found when processing input"
              eq_refl eq_refl) as [Hiff Hmsg].
  split; [exact Hiff|]. apply Hmsg. discriminate.
Defined.

(** C7.  Every call of the tool carries the timeout of 60 seconds.  A
    file whose conversion runs past it is a failure of that file alone:
    it prints the timed-out line and is not counted, the files after it
    are still attempted, and the run goes on to its summary. *)
Theorem timeout_fails_one_file_only fl env w before slow after :
  path_exists (fs w) (Path "music") = true ->
  destination_free (fs w) = true ->
  glob fl (fs w) (Path "music") "*.mp3" = before ++ slow :: after ->
  runs_past_timeout
    (env (ffmpeg_cmd fl slow (target (Path "public/music") slow))) = true ->
  let files := before ++ slow :: after in
  let counts := converts fl env (Path "public/music") in
  exists w',
    run_script fl env w = (Exited 1, w')
    /\ spawned w' = spawned w ++ map (call_for fl (Path "public/music")) files
    /\ Forall (fun i => timeout i = 60%Q)
         (map (call_for fl (Path "public/music")) files)
    /\ lines_for fl env (Path "public/music") slow
       = [("Converting: " ++ name slow)%string; msg_timed_out]
    /\ counts slow = false
    /\ In (msg_summary (len (filter counts before) + len (filter counts after))
             (len files)) (console w').
Proof.
  intros Hsrc Hfree Hglob Hslow files counts.
  assert (Hne : files <> []).
  { unfold files. destruct before; discriminate. }
  assert (Hfail : counts slow = false).
  { unfold counts, converts.
    destruct (env (ffmpeg_cmd fl slow (target (Path "public/music") slow)))
      as [e | seconds status out err | ]; cbn in *; try reflexivity.
    apply negb_true_iff in Hslow. rewrite Hslow. reflexivity. }
  assert (Hline : outcome_line
            (env (ffmpeg_cmd fl slow (target (Path "public/music") slow)))
            = msg_timed_out).
  { destruct (env (ffmpeg_cmd fl slow (target (Path "public/music") slow)))
      as [e | seconds status out err | ]; cbn in *;
      try discriminate Hslow; try reflexivity.
    apply negb_true_iff in Hslow. rewrite Hslow. reflexivity. }
  rewrite (run_script_converts fl env w files Hsrc Hfree Hglob Hne).
  fold counts.
  assert (Hgood : len (filter counts files)
                  = (len (filter counts before) + len (filter counts after))%Z).
  { unfold files. rewrite filter_app. cbn [filter]. rewrite Hfail.
    apply len_app. }
  assert (Hlt : (len (filter counts files) <? len files)%Z = true).
  { apply Z.ltb_lt. rewrite Hgood. unfold files.
    rewrite len_app, len_cons.
    pose proof (len_filter_le counts before).
    pose proof (len_filter_le counts after). lia. }
  rewrite Hlt. eexists. split; [reflexivity|]. split; [reflexivity|].
  split.
  { apply Forall_forall. intros i Hi. apply in_map_iff in Hi.
    destruct Hi as (f & <- & _). reflexivity. }
  split; [unfold lines_for; rewrite Hline; reflexivity|].
  split; [exact Hfail|].
  cbn [console]. rewrite Hgood.
  rewrite !in_app_iff. right; right; right; left.
  simpl. right; left; reflexivity.
Qed.

Lemma timeout_fails_one_file_only_witness :
  exists w',
    run_script Posix env_stuck_on_b sample_world = (Exited 1, w')
    /\ spawned w' =
       spawned sample_world
       ++ map (call_for Posix (Path "public/music")) sample_files
    /\ In (msg_summary 2 3) (console w').
Proof.
  destruct (timeout_fails_one_file_only Posix env_stuck_on_b sample_world
              [["music"; "a.mp3"]] ["music"; "b.mp3"] [["music"; "c.mp3"]]
              eq_refl eq_refl eq_refl eq_refl)
    as (w' & Hrun & Hcalls & _ & _ & _ & Hsum).
  exists w'. split; [exact Hrun|]. split; [exact Hcalls|]. exact Hsum.
Defined.

Lemma tool_absent_outcome b :
  tool_absent b = true ->
  tool_succeeds b = false /\ outcome_line b = msg_not_found.
Proof.
  destruct b as [[c s H] | seconds status out err | ]; cbn;
    try discriminate.
  destruct c; cbn; try discriminate. intros _. split; reflexivity.
Qed.

(** C8.  With the tool absent for every file, every one of the N files is
    attempted and every one fails: the summary reads 0/N, the process
    exits with status 1, and each file is reported with the line that
    names the missing tool, which is never the line of the generic
    handler. *)
Theorem absent_tool_fails_every_file fl env w files :
  path_exists (fs w) (Path "music") = true ->
  destination_free (fs w) = true ->
  glob fl (fs w) (Path "music") "*.mp3" = files ->
  files <> [] ->
  (forall f, In f files ->
     tool_absent (env (ffmpeg_cmd fl f (target (Path "public/music") f)))
     = true) ->
  exists w',
    run_script fl env w = (Exited 1, w')
    /\ spawned w' = spawned w ++ map (call_for fl (Path "public/music")) files
    /\ len (filter (fun f => negb (converts fl env (Path "public/music") f))
              files) = len files
    /\ console w' =
       console w ++ [found_line files]
       ++ flat_map
            (fun f =>
               [ ("Converting: " ++ name f)%string;
                 "  ✗ ffmpeg not found. Make sure ffmpeg.exe is in your PATH or in the current directory" ])
            files
       ++ [ (nl ++ str_repeat "=" 60)%string;
            ("Conversion complete: 0/" ++ str_int (len files)
             ++ " successful")%string;
            str_repeat "=" 60;
            (nl ++ "Some files failed to convert. Check errors above.")%string ]
    /\ forall e,
         msg_error e = ("  ✗ Error: " ++ exn_str e)%string
         /\ "  ✗ ffmpeg not found. Make sure ffmpeg.exe is in your PATH or in the current directory"
            <> msg_error e.
Proof.
  intros Hsrc Hfree Hglob Hne Habsent.
  assert (Hnone : forall f, In f files ->
            converts fl env (Path "public/music") f = false).
  { intros f Hf. apply (tool_absent_outcome _ (Habsent f Hf)). }
  assert (Hlines : forall f, In f files ->
            lines_for fl env (Path "public/music") f
            = [("Converting: " ++ name f)%string; msg_not_found]).
  { intros f Hf. unfold lines_for.
    destruct (tool_absent_outcome _ (Habsent f Hf)) as [_ ->]. reflexivity. }
  rewrite (run_script_converts fl env w files Hsrc Hfree Hglob Hne).
  rewrite (filter_none _ _ Hnone), (flat_map_ext_in _ _ _ Hlines).
  assert (Hpos : (len (@nil path) <? len files)%Z = true).
  { apply Z.ltb_lt. destruct files; [contradiction Hne; reflexivity|].
    rewrite len_cons. pose proof (len_nonneg files).
    change (len (@nil path)) with 0%Z. lia. }
  rewrite Hpos. eexists. split; [reflexivity|]. split; [reflexivity|].
  split.
  { rewrite filter_all; [reflexivity|].
    intros f Hf. rewrite (Hnone f Hf). reflexivity. }
  split; [reflexivity|].
  intros e. split; [reflexivity|].
  intros H. unfold msg_error in H. cbn in H. discriminate H.
Qed.

Lemma absent_tool_fails_every_file_witness :
  exists w',
    run_script Windows env_absent sample_world = (Exited 1, w')
    /\ In "Conversion complete: 0/3 successful" (console w')
    /\ In "  ✗ ffmpeg not found. Make sure ffmpeg.exe is in your PATH or in the current directory"
         (console w').
Proof.
  destruct (absent_tool_fails_every_file Windows env_absent sample_world
              sample_files eq_refl eq_refl eq_refl)
    as (w' & Hrun & _ & _ & Hconsole & _).
  - discriminate.
  - intros f _. reflexivity.
  - exists w'. split; [exact Hrun|]. rewrite Hconsole.
    split; simpl; tauto.
Defined.

(** C9.  With the source directory there and no matching file, the
    destination [public/music] and its parent exist as directories when
    the process exits with status 1: they were made before the files were
    looked for, so this path, unlike the one of a missing source
    directory, does not leave the file system as it found it. *)
Theorem no_files_still_makes_destination fl env w :
  path_exists (fs w) (Path "music") = true ->
  destination_free (fs w) = true ->
  glob fl (fs w) (Path "music") "*.mp3" = [] ->
  exists w',
    run_script fl env w = (Exited 1, w')
    /\ fs w' = fs w ++ made_dirs (fs w)
    /\ is_dir (fs w') (Path "public") = true
    /\ is_dir (fs w') (Path "public/music") = true
    /\ spawned w' = spawned w
    /\ (is_dir (fs w) (Path "public/music") = false -> fs w' <> fs w).
Proof.
  intros Hsrc Hfree Hglob.
  rewrite (run_script_no_files fl env w Hsrc Hfree Hglob).
  eexists. split; [reflexivity|]. cbn [fs spawned].
  split; [reflexivity|].
  split; [apply is_dir_after_mkdir; [exact Hfree | left; reflexivity]|].
  split; [apply is_dir_after_mkdir; [exact Hfree | right; reflexivity]|].
  split; [reflexivity|].
  intros Hbefore Hsame.
  pose proof (is_dir_after_mkdir (fs w) ["public"; "music"] Hfree
                (or_intror eq_refl)) as Hafter.
  rewrite Hsame in Hafter.
  change (Path "public/music") with ["public"; "music"] in Hbefore.
  rewrite Hbefore in Hafter. discriminate Hafter.
Qed.

Lemma no_files_still_makes_destination_witness :
  exists w',
    run_script Posix env_ok world_no_mp3 = (Exited 1, w')
    /\ fs w' =
       fs world_no_mp3
       ++ [(["public"], Directory); (["public"; "music"], Directory)]
    /\ fs w' <> fs world_no_mp3.
Proof.
  destruct (no_files_still_makes_destination Posix env_ok world_no_mp3
              eq_refl eq_refl eq_refl)
    as (w' & Hrun & Hfs & _ & _ & _ & Hchanged).
  exists w'. split; [exact Hrun|]. split; [exact Hfs|].
  apply Hchanged. reflexivity.
Defined.

(** ** What [convert_audio_file] lets through (C10) *)

Section StrictConversion.

Import StrictIO.

Variable console_refuses : string -> option string.
Variable decode_fails : string -> option string.
Variable fl : flavour.
Variable env : environment.

Lemma subclass_upto_Std n : forall c d,
  subclass_upto n (Std c) (Std d) = issubclass_upto n c d.
Proof.
  induction n as [|n IH]; intros c d; cbn; [reflexivity|].
  destruct (base c) as [b|]; cbn; [rewrite IH|]; reflexivity.
Qed.

Lemma instance_of_invocation_error (e : error) :
  instance_of (mkRaised (Std (err_cls e)) (err_str e)) Exception = true.
Proof.
  unfold instance_of, subclass. cbn [raised_cls].
  rewrite subclass_upto_Std. exact (err_is_Exception e).
Qed.

Ltac strict_instance :=
  match goal with
  | |- context [instance_of (mkRaised (Std (err_cls ?e)) ?s) ?c] =>
      first [ rewrite (instance_of_invocation_error e)
            | destruct (instance_of (mkRaised (Std (err_cls e)) s) c) ]
  | |- context [instance_of (mkRaised ?k ?s) ?c] =>
      let v := eval cbv in (instance_of (mkRaised k s) c) in
      change (instance_of (mkRaised k s) c) with v
  end.

Ltac strict_cases refuses :=
  repeat (cbn -[instance_of]; unfold seq, StrictIO.print, pure;
          cbn -[instance_of];
          try match goal with
              | H : (_ =? 0)%Z = _ |- _ => rewrite !H
              end;
          first [ strict_instance
                | match goal with
                  | |- context [refuses ?s] => destruct (refuses s)
                  end ]);
  cbn; rewrite <- ?app_assoc; reflexivity.

(** The function, by cases on what the console refuses. *)
Lemma strict_convert_audio_file_spec input_path output_path w :
  let b := env (ffmpeg_cmd fl input_path output_path) in
  let progress := ("Converting: " ++ name input_path)%string in
  let called := spawned w ++ [attempt fl input_path output_path] in
  StrictIO.convert_audio_file console_refuses decode_fails fl env
    input_path output_path w =
  match console_refuses progress with
  | Some why => (Err (mkRaised UnicodeEncodeError why), w)
  | None =>
      match console_refuses (first_line decode_fails b) with
      | None =>
          (Ok (completes_cleanly decode_fails b),
           mkWorld (fs w)
             (console w ++ [progress; first_line decode_fails b]) called)
      | Some why =>
          match invocation_result decode_fails b with
          | Ok _ =>
              match console_refuses ("  ✗ Error: " ++ why)%string with
              | None =>
                  (Ok false,
                   mkWorld (fs w)
                     (console w ++ [progress; ("  ✗ Error: " ++ why)%string])
                     called)
              | Some why' =>
                  (Err (mkRaised UnicodeEncodeError why'),
                   mkWorld (fs w) (console w ++ [progress]) called)
              end
          | Err _ =>
              (Err (mkRaised UnicodeEncodeError why),
               mkWorld (fs w) (console w ++ [progress]) called)
          end
      end
  end.
Proof.
  intros b progress called. subst progress called.
  unfold StrictIO.convert_audio_file, StrictIO.try_except,
    StrictIO.subprocess_run, first_line, completes_cleanly,
    invocation_result, attempt, msg_converted, msg_ffmpeg_error,
    msg_timed_out, msg_not_found.
  fold b.
  destruct b as [e | seconds status out err | ].
  - strict_cases console_refuses.
  - destruct (Qle_bool seconds 60);
      [destruct (decode_fails out); [|destruct (decode_fails err)] |];
      destruct (status =? 0)%Z eqn:Hstatus; strict_cases console_refuses.
  - strict_cases console_refuses.
Qed.




End StrictConversion.

(** With a console that takes every line and an output that always
    decodes, the function is the one of the model above. *)
Lemma strict_agrees_when_nothing_fails fl env input_path output_path w :
  StrictIO.convert_audio_file StrictIO.accepts_all StrictIO.accepts_all fl env
    input_path output_path w
  = (match fst (convert_audio_file fl env input_path output_path w) with
     | Ret ok => StrictIO.Ok ok
     | Raise e => StrictIO.Err (StrictIO.mkRaised (StrictIO.Std (exn_cls e)) (exn_str e))
     end,
     snd (convert_audio_file fl env input_path output_path w)).
Proof.
  rewrite strict_convert_audio_file_spec, convert_audio_file_spec.
  cbn [fst snd StrictIO.accepts_all].
  set (b := env (ffmpeg_cmd fl input_path output_path)).
  assert (Hsame : StrictIO.completes_cleanly StrictIO.accepts_all b
                  = tool_succeeds b
                  /\ StrictIO.first_line StrictIO.accepts_all b = outcome_line b).
  { unfold StrictIO.completes_cleanly, StrictIO.first_line,
      StrictIO.invocation_result, tool_succeeds, outcome_line,
      StrictIO.accepts_all.
    destruct b as [e | seconds status out err | ].
    - unfold StrictIO.instance_of, StrictIO.subclass, isinstance, issubclass.
      cbn [StrictIO.raised_cls StrictIO.raised_str exn_of_error exn_cls].
      rewrite !subclass_upto_Std. split; reflexivity.
    - destruct (Qle_bool seconds 60); cbn; [|split; reflexivity].
      destruct (status =? 0)%Z; split; reflexivity.
    - split; reflexivity. }
  destruct Hsame as [-> ->]. reflexivity.
Qed.




(** * Further properties of [convert_audio.py] *)

Lemma len_filter_full {A : Type} (f : A -> bool) l :
  len (filter f l) = len l <-> forall x, In x l -> f x = true.
Proof.
  split.
  - induction l as [|x l IH]; intros H y Hy; [contradiction Hy|].
    cbn [filter] in H. destruct (f x) eqn:Hx.
    + rewrite !len_cons in H. destruct Hy as [<- | Hy]; [exact Hx|].
      apply IH; [lia | exact Hy].
    + pose proof (len_filter_le f l). rewrite len_cons in H. lia.
  - intros H. rewrite (filter_all f l H). reflexivity.
Qed.

(** Every run, by cases on what it meets. *)
Lemma run_script_cases fl env w :
  (path_exists (fs w) (Path "music") = false
   /\ exists line,
        run_script fl env w
        = (Exited 1, mkWorld (fs w) (console w ++ [line]) (spawned w)))
  \/ (path_exists (fs w) (Path "music") = true
      /\ destination_free (fs w) = false
      /\ exists e, run_script fl env w = (Traceback e, w))
  \/ (path_exists (fs w) (Path "music") = true
      /\ destination_free (fs w) = true
      /\ glob fl (fs w) (Path "music") "*.mp3" = []
      /\ exists line,
           run_script fl env w
           = (Exited 1,
              mkWorld (fs w ++ made_dirs (fs w)) (console w ++ [line])
                (spawned w)))
  \/ (path_exists (fs w) (Path "music") = true
      /\ destination_free (fs w) = true
      /\ glob fl (fs w) (Path "music") "*.mp3" <> []
      /\ exists lines,
           let files := glob fl (fs w) (Path "music") "*.mp3" in
           let good := len (filter (converts fl env (Path "public/music")) files) in
           run_script fl env w
           = (Exited (if (good <? len files)%Z then 1 else 0),
              mkWorld (fs w ++ made_dirs (fs w)) (console w ++ lines)
                (spawned w ++ map (call_for fl (Path "public/music")) files))).
Proof.
  destruct (path_exists (fs w) (Path "music")) eqn:Hsrc.
  - right. destruct (destination_free (fs w)) eqn:Hfree.
    + right. destruct (glob fl (fs w) (Path "music") "*.mp3") as [|f files] eqn:Hglob.
      * left. repeat split. eexists.
        apply (run_script_no_files fl env w Hsrc Hfree Hglob).
      * right. repeat split; [discriminate|]. eexists.
        rewrite <- Hglob.
        apply (run_script_converts fl env w _ Hsrc Hfree eq_refl).
        rewrite Hglob. discriminate.
    + left. repeat split. apply (run_script_blocked fl env w Hsrc Hfree).
  - left. split; [reflexivity|]. eexists. unfold run_script.
    rewrite (main_no_source fl env w Hsrc). reflexivity.
Qed.

(** X1.  The exit status is 0 exactly when the source directory exists,
    the destination could be made, at least one file matched and every
    matching file converted; in every other run it is not 0. *)
Theorem exit_status_zero_iff fl env w :
  exit_status (fst (run_script fl env w)) = 0%Z
  <-> path_exists (fs w) (Path "music") = true
      /\ destination_free (fs w) = true
      /\ glob fl (fs w) (Path "music") "*.mp3" <> []
      /\ forall f, In f (glob fl (fs w) (Path "music") "*.mp3") ->
                   converts fl env (Path "public/music") f = true.
Proof.
  destruct (run_script_cases fl env w)
    as [(Hsrc & l & Hrun) | [(Hsrc & Hfree & e & Hrun)
       | [(Hsrc & Hfree & Hglob & l & Hrun)
         | (Hsrc & Hfree & Hglob & l & Hrun)]]];
    cbv zeta in *; rewrite Hrun; cbn [fst exit_status].
  - rewrite Hsrc. split; [discriminate | intros [H _]; discriminate H].
  - rewrite Hfree. split; [discriminate | intros (_ & H & _); discriminate H].
  - rewrite Hglob.
    split; [discriminate | intros (_ & _ & H & _); contradiction H; reflexivity].
  - set (files := glob fl (fs w) (Path "music") "*.mp3") in *.
    set (good := len (filter (converts fl env (Path "public/music")) files)).
    pose proof (len_filter_le (converts fl env (Path "public/music")) files) as Hle.
    fold good in Hle.
    destruct (good <? len files)%Z eqn:Hlt.
    + apply Z.ltb_lt in Hlt. split; [discriminate|].
      intros (_ & _ & _ & Hall). apply len_filter_full in Hall.
      fold good in Hall. lia.
    + apply Z.ltb_ge in Hlt. split; [|reflexivity]. intros _.
      repeat split; try assumption.
      apply len_filter_full. fold good. lia.
Qed.

(** X3.  The tool is called once for each discovered file, in listing
    order, whatever the outcome of each call: no file is retried and none
    is skipped; and it is not called at all when the source directory is
    missing or the destination cannot be made. *)
Theorem one_call_per_discovered_file fl env w :
  spawned (snd (run_script fl env w)) =
  spawned w
  ++ (if path_exists (fs w) (Path "music") && destination_free (fs w)
      then map (call_for fl (Path "public/music"))
             (glob fl (fs w) (Path "music") "*.mp3")
      else []).
Proof.
  destruct (run_script_cases fl env w)
    as [(Hsrc & l & Hrun) | [(Hsrc & Hfree & e & Hrun)
       | [(Hsrc & Hfree & Hglob & l & Hrun)
         | (Hsrc & Hfree & Hglob & l & Hrun)]]];
    cbv zeta in *; rewrite Hrun; cbn [snd spawned];
    rewrite Hsrc, ?Hfree, ?Hglob; cbn [andb map];
    rewrite ?app_nil_r; reflexivity.
Qed.

(** X5.  An error of the invocation that is neither a timeout nor a
    missing executable (a [PermissionError], say) falls to the last
    handler: the conversion returns [False] and the line printed carries
    the text of the error. *)
Theorem other_errors_print_their_text fl env input_path output_path w e :
  env (ffmpeg_cmd fl input_path output_path) = Fails e ->
  isinstance (exn_of_error e) TimeoutExpired = false ->
  isinstance (exn_of_error e) FileNotFoundError = false ->
  convert_audio_file fl env input_path output_path w =
  (Ret false,
   mkWorld (fs w)
     (console w ++ [("Converting: " ++ name input_path)%string;
                    ("  ✗ Error: " ++ err_str e)%string])
     (spawned w ++ [attempt fl input_path output_path])).
Proof.
  intros Henv Ht Hn. rewrite convert_audio_file_spec, Henv.
  cbn [tool_succeeds outcome_line]. rewrite Ht, Hn. reflexivity.
Qed.

Lemma other_errors_print_their_text_witness :
  convert_audio_file Posix env_not_executable
    ["music"; "a.mp3"] ["public"; "music"; "a.mp3"] sample_world =
  (Ret false,
   mkWorld sample_fs
     [ "Converting: a.mp3";
       "  ✗ Error: [Errno 13] Permission denied: 'ffmpeg.exe'" ]
     [ attempt Posix ["music"; "a.mp3"] ["public"; "music"; "a.mp3"] ]).
Proof.
  exact (other_errors_print_their_text Posix env_not_executable
           ["music"; "a.mp3"] ["public"; "music"; "a.mp3"] sample_world _
           eq_refl eq_refl eq_refl).
Defined.


(** * Properties of the YouTube Music scripts *)

Section YTMusicProperties.

Import YTMusicScripts.

Variable lib : ytmusicapi.
Variable cwd : filesystem.
Variable repr : value -> string.

Lemma is_Exception_always e : is_Exception e = true.
Proof. destruct e as [m|m|m|m|[c t H]]; try reflexivity. exact H. Qed.

Lemma for_in_listing items s :
  for_in items
    (fun '(i, song) =>
       and_then (lift (song_line repr i song)) (fun line => say line)) s
  = ((match snd (listing repr items) with
      | None => Done tt
      | Some e => Throw e
      end),
     mkSession (out s ++ fst (listing repr items)) (api s)).
Proof.
  revert s. induction items as [|[i song] items IH]; intros s.
  - cbn. unfold unit_. rewrite app_nil_r. destruct s; reflexivity.
  - cbn [for_in listing]. unfold and_then at 1 2, lift.
    destruct (song_line repr i song) as [line | e].
    + unfold say at 1. rewrite IH. cbn [out api].
      destruct (listing repr items) as [lines stop]. cbn [fst snd].
      rewrite <- app_assoc. reflexivity.
    + cbn [fst snd]. rewrite app_nil_r. destruct s; reflexivity.
Qed.

(** [test.py], by cases on what the library does. *)
Lemma test_py_spec s :
  test_py lib cwd repr s =
  match YTMusic lib (chosen_auth cwd) with
  | Some e =>
      (Throw (LibraryError e),
       mkSession (out s ++ opening_lines cwd)
         (api s ++ [Construct (chosen_auth cwd)]))
  | None =>
      (Done tt,
       mkSession
         (out s ++ opening_lines cwd ++ [searching_line]
          ++ match search lib (chosen_auth cwd) "Blinding Lights" "songs" with
             | inr e => error_lines (LibraryError e)
             | inl [] => ["No results found"%string]
             | inl results =>
                 let shown := listing repr (enumerate (firstn 5 results) 1) in
                 [found_results_line results] ++ fst shown
                 ++ match snd shown with
                    | None => []
                    | Some e => error_lines e
                    end
             end)
         (api s ++ [Construct (chosen_auth cwd);
                    Search (chosen_auth cwd) "Blinding Lights" "songs"]))
  end.
Proof.
  unfold test_py, chosen_auth, opening_lines, auth_line, chosen_auth.
  unfold and_then at 1. unfold say at 1. unfold and_then at 1.
  destruct (path_exists cwd (Path "headers_auth.json")).
  all: unfold and_then at 1; unfold say at 1; unfold new_client; cbn [out api].
  all: match goal with |- context [YTMusic lib ?a] => destruct (YTMusic lib a) as [e|] end.
  all: try (rewrite <- !app_assoc; reflexivity).
  all: unfold try_except_Exception, and_then at 1, say at 1;
       unfold and_then at 1, client_search; cbn [out api].
  all: match goal with
       | |- context [search lib ?a ?q ?f] =>
           destruct (search lib a q f) as [[|song results] | e]
       end.
  all: try (unfold say; cbn [out api]; rewrite <- !app_assoc; reflexivity).
  all: try (rewrite is_Exception_always; unfold and_then, say; cbn [out api];
            rewrite <- !app_assoc; reflexivity).
  all: unfold and_then at 1, say at 1; rewrite for_in_listing; cbn [out api];
       destruct (listing repr (enumerate (firstn 5 (song :: results)) 1))
         as [lines [e|]]; cbn [fst snd];
       [ rewrite is_Exception_always; unfold and_then, say; cbn [out api] | ];
       unfold found_results_line, searching_line, error_lines;
       rewrite ?app_nil_r, <- ?app_assoc; cbn [app];
       rewrite <- ?app_assoc; reflexivity.
Qed.

Lemma listing_all xs : forall start,
  (forall j song, nth_error xs j = Some song ->
     exists line, song_line repr (start + Z.of_nat j) song = Done line) ->
  exists lines,
    listing repr (enumerate xs start) = (lines, None)
    /\ List.length lines = List.length xs
    /\ forall j song, nth_error xs j = Some song ->
         exists line,
           nth_error lines j = Some line
           /\ song_line repr (start + Z.of_nat j) song = Done line.
Proof.
  induction xs as [|x xs IH]; intros start H.
  - exists []. repeat split. intros [|j] song Hj; discriminate Hj.
  - destruct (H 0%nat x eq_refl) as [line Hline].
    rewrite Z.add_0_r in Hline.
    destruct (IH (start + 1)%Z) as (lines & Hl & Hlen & Hnth).
    { intros j song Hj. destruct (H (Datatypes.S j) song Hj) as [l Hs].
      exists l. rewrite <- Hs. f_equal. lia. }
    exists (line :: lines). cbn [enumerate listing]. rewrite Hline, Hl.
    split; [reflexivity|]. split; [cbn; lia|].
    intros [|j] song Hj.
    + injection Hj as <-. exists line. rewrite Z.add_0_r. auto.
    + destruct (Hnth j song Hj) as (l & Hn & Hs). exists l. split; [exact Hn|].
      rewrite <- Hs. f_equal. lia.
Qed.

Lemma listing_prefix k e : forall xs start bad,
  (forall j song, (j < k)%nat -> nth_error xs j = Some song ->
     exists line, song_line repr (start + Z.of_nat j) song = Done line) ->
  nth_error xs k = Some bad ->
  song_line repr (start + Z.of_nat k) bad = Throw e ->
  exists lines,
    listing repr (enumerate xs start) = (lines, Some e)
    /\ List.length lines = k
    /\ forall j song, (j < k)%nat -> nth_error xs j = Some song ->
         exists line,
           nth_error lines j = Some line
           /\ song_line repr (start + Z.of_nat j) song = Done line.
Proof.
  induction k as [|k IH]; intros xs start bad Hgood Hbad Hthrow.
  - destruct xs as [|x xs]; [discriminate Hbad|]. injection Hbad as ->.
    rewrite Z.add_0_r in Hthrow. exists [].
    cbn [enumerate listing]. rewrite Hthrow. repeat split. intros j song Hj. lia.
  - destruct xs as [|x xs]; [discriminate Hbad|]. cbn [nth_error] in Hbad.
    destruct (Hgood 0%nat x (Nat.lt_0_succ k) eq_refl) as [line Hline].
    rewrite Z.add_0_r in Hline.
    destruct (IH xs (start + 1)%Z bad) as (lines & Hl & Hlen & Hnth).
    { intros j song Hj Hs.
      destruct (Hgood (Datatypes.S j) song (proj1 (Nat.succ_lt_mono j k) Hj) Hs)
        as [l Hl].
      exists l. rewrite <- Hl. f_equal. lia. }
    { exact Hbad. }
    { rewrite <- Hthrow. f_equal. lia. }
    exists (line :: lines). cbn [enumerate listing]. rewrite Hline, Hl.
    split; [reflexivity|]. split; [cbn; lia|].
    intros [|j] song Hj Hs.
    + injection Hs as <-. exists line. rewrite Z.add_0_r. auto.
    + destruct (Hnth j song (proj2 (Nat.succ_lt_mono j k) Hj) Hs)
        as (l & Hn & Hd).
      exists l. split; [exact Hn|]. rewrite <- Hd. f_equal. lia.
Qed.

Lemma nth_error_first_five (results : list value) j song :
  nth_error (firstn 5 results) j = Some song
  <-> (j < 5)%nat /\ nth_error results j = Some song.
Proof.
  rewrite nth_error_firstn. destruct (Nat.ltb_spec j 5).
  - tauto.
  - split; [discriminate | intros [Hj _]; lia].
Qed.

(** X6.  When the client is made and the search returns songs of which
    each of the first five has a line, [test.py] ends normally having
    printed the header with the full number of results and then one line
    for each of the first five results only, in order and numbered from
    1. *)
Theorem test_py_lists_first_five s results :
  YTMusic lib (chosen_auth cwd) = None ->
  search lib (chosen_auth cwd) "Blinding Lights" "songs" = inl results ->
  results <> [] ->
  (forall j song, (j < 5)%nat -> nth_error results j = Some song ->
     exists line, song_line repr (1 + Z.of_nat j) song = Done line) ->
  exists lines,
    run (test_py lib cwd repr) s =
    (Finished,
     mkSession
       (out s ++ opening_lines cwd
        ++ [searching_line; found_results_line results] ++ lines)
       (api s ++ [Construct (chosen_auth cwd);
                  Search (chosen_auth cwd) "Blinding Lights" "songs"]))
    /\ List.length lines = Nat.min 5 (List.length results)
    /\ forall j song, (j < 5)%nat -> nth_error results j = Some song ->
         exists line,
           nth_error lines j = Some line
           /\ song_line repr (1 + Z.of_nat j) song = Done line.
Proof.
  intros Hnew Hsearch Hne Hgood.
  destruct (listing_all (firstn 5 results) 1%Z) as (lines & Hl & Hlen & Hnth).
  { intros j song Hj. apply nth_error_first_five in Hj.
    destruct Hj as [Hj Hs]. exact (Hgood j song Hj Hs). }
  exists lines. split; [|split].
  - unfold run. rewrite test_py_spec, Hnew, Hsearch.
    destruct results as [|song results]; [contradiction Hne; reflexivity|].
    cbv zeta. rewrite Hl. cbn [fst snd]. rewrite app_nil_r.
    reflexivity.
  - rewrite Hlen. apply length_firstn.
  - intros j song Hj Hs. apply Hnth. apply nth_error_first_five. auto.
Qed.

(** X7.  A song among the first five whose line cannot be made (its
    artists entry is not a list of dictionaries, say) does not crash
    [test.py]: the songs before it are listed, the listing stops there,
    the three lines of the handler are printed with the text of the
    exception, and the script ends normally. *)
Theorem test_py_stops_at_malformed_song s results k bad e :
  YTMusic lib (chosen_auth cwd) = None ->
  search lib (chosen_auth cwd) "Blinding Lights" "songs" = inl results ->
  (k < 5)%nat ->
  nth_error results k = Some bad ->
  song_line repr (1 + Z.of_nat k) bad = Throw e ->
  (forall j song, (j < k)%nat -> nth_error results j = Some song ->
     exists line, song_line repr (1 + Z.of_nat j) song = Done line) ->
  exists lines,
    run (test_py lib cwd repr) s =
    (Finished,
     mkSession
       (out s ++ opening_lines cwd
        ++ [searching_line; found_results_line results] ++ lines
        ++ error_lines e)
       (api s ++ [Construct (chosen_auth cwd);
                  Search (chosen_auth cwd) "Blinding Lights" "songs"]))
    /\ List.length lines = k
    /\ forall j song, (j < k)%nat -> nth_error results j = Some song ->
         exists line,
           nth_error lines j = Some line
           /\ song_line repr (1 + Z.of_nat j) song = Done line.
Proof.
  intros Hnew Hsearch Hk Hbad Hthrow Hgood.
  destruct (listing_prefix k e (firstn 5 results) 1%Z bad)
    as (lines & Hl & Hlen & Hnth).
  { intros j song Hj Hs. apply nth_error_first_five in Hs.
    destruct Hs as [_ Hs]. exact (Hgood j song Hj Hs). }
  { apply nth_error_first_five. auto. }
  { exact Hthrow. }
  exists lines. split; [|split; [exact Hlen|]].
  - unfold run. rewrite test_py_spec, Hnew, Hsearch.
    destruct results as [|song results]; [destruct k; discriminate Hbad|].
    cbv zeta. rewrite Hl. cbn [fst snd]. reflexivity.
  - intros j song Hj Hs. apply (Hnth j song Hj).
    apply nth_error_first_five. split; [lia | exact Hs].
Qed.

(** X8.  Once the client is made, [test.py] always ends normally,
    whatever the search returns or raises: it searches exactly once, for
    the songs called "Blinding Lights", through the client it made. *)
Theorem test_py_never_crashes_once_client_is_made s :
  YTMusic lib (chosen_auth cwd) = None ->
  exists rest,
    run (test_py lib cwd repr) s =
    (Finished,
     mkSession (out s ++ opening_lines cwd ++ [searching_line] ++ rest)
       (api s ++ [Construct (chosen_auth cwd);
                  Search (chosen_auth cwd) "Blinding Lights" "songs"])).
Proof.
  intros Hnew. unfold run. rewrite test_py_spec, Hnew.
  eexists. reflexivity.
Qed.

(** X9.  The construction of the client is outside the [try] of
    [test.py]: when it raises, the script ends in a traceback with that
    exception after its two opening lines, and no search is made. *)
Theorem test_py_crashes_when_client_cannot_be_made s e :
  YTMusic lib (chosen_auth cwd) = Some e ->
  run (test_py lib cwd repr) s =
  (Crashed (LibraryError e),
   mkSession (out s ++ opening_lines cwd)
     (api s ++ [Construct (chosen_auth cwd)])).
Proof.
  intros Hnew. unfold run. rewrite test_py_spec, Hnew. reflexivity.
Qed.

(** X10.  The fallback list written in the artist expression of
    [test.py] is never used: whatever list is put there, the artist is
    the same, because the entry is read a second time only when the first
    reading found it non-empty. *)
Theorem artist_fallback_is_never_used fallback song :
  artist_with fallback song = artist_with (VList [VDict []]) song.
Proof.
  unfold artist_with.
  destruct song as [| b | n | t | l | d]; try reflexivity.
  unfold get. destruct (lookup d "artists") as [x|]; reflexivity.
Qed.

(** X11.  For a song that is a dictionary, a field that is absent prints
    as "Unknown"; a field that is there and null prints as "None" for the
    title and the duration, and as "Unknown" for the artist. *)
Theorem absent_and_null_fields i d :
  (lookup d "title" = None -> lookup d "artists" = None ->
   lookup d "duration" = None ->
   song_line repr i (VDict d)
   = Done (str_int i ++ ". Unknown - Unknown (Unknown)")%string)
  /\ (lookup d "title" = Some VNone -> lookup d "artists" = Some VNone ->
      lookup d "duration" = Some VNone ->
      song_line repr i (VDict d)
      = Done (str_int i ++ ". None - Unknown (None)")%string).
Proof.
  split; intros Ht Ha Hd; unfold song_line, artist_with, get;
    rewrite Ht, Ha, Hd; reflexivity.
Qed.

Lemma for_in_say lines s :
  for_in lines say s = (Done tt, mkSession (out s ++ lines) (api s)).
Proof.
  revert s. induction lines as [|l lines IH]; intros s.
  - cbn. unfold unit_. rewrite app_nil_r. destruct s; reflexivity.
  - cbn [for_in]. unfold and_then, say at 1. rewrite IH. cbn [out api].
    rewrite <- app_assoc. reflexivity.
Qed.

(** X12.  [setup_auth.py] always ends normally: it prints its fourteen
    lines of instructions, asks once for a client without authentication
    and never searches, prints four lines when the client is made and the
    one line of the error when it is not, and closes with the rule. *)
Theorem setup_auth_py_always_finishes s :
  exists middle,
    run (setup_auth_py lib) s =
    (Finished,
     mkSession
       (out s ++ setup_banner ++ middle ++ [(nl ++ str_repeat "=" 60)%string])
       (api s ++ [Construct None]))
    /\ List.length setup_banner = 14%nat
    /\ (YTMusic lib None = None -> List.length middle = 4%nat)
    /\ (forall e, YTMusic lib None = Some e ->
          middle = [("Error: " ++ err_str e)%string]).
Proof.
  unfold run, setup_auth_py. unfold and_then at 1. rewrite for_in_say.
  unfold and_then at 1, try_except_Exception, and_then at 1, new_client.
  cbn [out api].
  destruct (YTMusic lib None) as [e|].
  - rewrite is_Exception_always. unfold say. cbn [out api].
    exists [("Error: " ++ err_str e)%string].
    split; [rewrite <- !app_assoc; reflexivity|].
    split; [reflexivity|]. split; [discriminate|].
    intros e' H. injection H as <-. reflexivity.
  - unfold and_then, say. cbn [out api].
    eexists [_; _; _; _].
    split; [rewrite <- !app_assoc; reflexivity|].
    split; [reflexivity|]. split; [reflexivity|]. discriminate.
Qed.

End YTMusicProperties.

Lemma test_py_lists_first_five_witness :
  exists lines,
    YTMusicScripts.run
      (YTMusicScripts.test_py YTMusicScripts.lib_seven [] YTMusicScripts.no_repr)
      YTMusicScripts.fresh
    = (YTMusicScripts.Finished,
       YTMusicScripts.mkSession
         (YTMusicScripts.opening_lines []
          ++ [YTMusicScripts.searching_line; ("Found 7 results:" ++ nl)%string]
          ++ lines)
         [YTMusicScripts.Construct None;
          YTMusicScripts.Search None "Blinding Lights" "songs"])
    /\ lines =
       [ "1. Blinding Lights - The Weeknd (3:20)";
         "2. Unknown - Unknown (Unknown)";
         "3. None - Unknown (None)";
         "4. Blinding Lights - The Weeknd (3:20)";
         "5. Unknown - Unknown (Unknown)" ].
Proof.
  destruct (test_py_lists_first_five YTMusicScripts.lib_seven []
              YTMusicScripts.no_repr YTMusicScripts.fresh _
              eq_refl eq_refl)
    as (lines & Hrun & Hlen & Hnth).
  - discriminate.
  - intros [|[|[|[|[|j]]]]] song Hj Hs; try lia;
      injection Hs as <-; eexists; reflexivity.
  - exists lines. split; [exact Hrun|].
    destruct (Hnth 0%nat _ (Nat.lt_0_succ 4) eq_refl) as (l0 & H0 & E0).
    destruct (Hnth 1%nat _ ltac:(lia) eq_refl) as (l1 & H1 & E1).
    destruct (Hnth 2%nat _ ltac:(lia) eq_refl) as (l2 & H2 & E2).
    destruct (Hnth 3%nat _ ltac:(lia) eq_refl) as (l3 & H3 & E3).
    destruct (Hnth 4%nat _ ltac:(lia) eq_refl) as (l4 & H4 & E4).
    destruct lines as [|a [|b [|c [|d [|f [|g lines]]]]]]; try discriminate Hlen.
    cbn in H0, H1, H2, H3, H4.
    injection H0 as ->. injection H1 as ->. injection H2 as ->.
    injection H3 as ->. injection H4 as ->.
    injection E0 as <-. injection E1 as <-. injection E2 as <-.
    injection E3 as <-. injection E4 as <-. reflexivity.
Defined.

Lemma test_py_stops_at_malformed_song_witness :
  YTMusicScripts.run
    (YTMusicScripts.test_py YTMusicScripts.lib_odd [] YTMusicScripts.no_repr)
    YTMusicScripts.fresh
  = (YTMusicScripts.Finished,
     YTMusicScripts.mkSession
       [ ("Testing YouTube Music API..." ++ nl)%string;
         "No authentication file found. Using public access (limited features)";
         (nl ++ "Searching for 'Blinding Lights'..." ++ nl)%string;
         ("Found 4 results:" ++ nl)%string;
         "1. Blinding Lights - The Weeknd (3:20)";
         "2. Unknown - Unknown (Unknown)";
         (nl ++ "Error: 'str' object has no attribute 'get'")%string;
         (nl ++ "If you need full API access, you may need to set up authentication.")%string;
         "Run setup_auth.py for instructions." ]
       [YTMusicScripts.Construct None;
        YTMusicScripts.Search None "Blinding Lights" "songs"]).
Proof.
  destruct (test_py_stops_at_malformed_song YTMusicScripts.lib_odd []
              YTMusicScripts.no_repr YTMusicScripts.fresh _ 2
              YTMusicScripts.odd_song
              (YTMusicScripts.AttributeError
                 "'str' object has no attribute 'get'")
              eq_refl eq_refl)
    as (lines & Hrun & Hlen & Hnth).
  - lia.
  - reflexivity.
  - reflexivity.
  - intros [|[|j]] song Hj Hs; try lia; injection Hs as <-;
      eexists; reflexivity.
  - destruct (Hnth 0%nat _ ltac:(lia) eq_refl) as (l0 & H0 & E0).
    destruct (Hnth 1%nat _ ltac:(lia) eq_refl) as (l1 & H1 & E1).
    destruct lines as [|a [|b [|c lines]]]; try discriminate Hlen.
    cbn in H0, H1. injection H0 as ->. injection H1 as ->.
    injection E0 as <-. injection E1 as <-. exact Hrun.
Defined.

Lemma test_py_never_crashes_once_client_is_made_witness :
  exists rest,
    YTMusicScripts.run
      (YTMusicScripts.test_py YTMusicScripts.lib_odd
         [(["headers_auth.json"], RegularFile)] YTMusicScripts.no_repr)
      YTMusicScripts.fresh
    = (YTMusicScripts.Finished,
       YTMusicScripts.mkSession
         ([ ("Testing YouTube Music API..." ++ nl)%string;
            "Using authentication from headers_auth.json";
            YTMusicScripts.searching_line ] ++ rest)
         [YTMusicScripts.Construct (Some "headers_auth.json");
          YTMusicScripts.Search (Some "headers_auth.json")
            "Blinding Lights" "songs"]).
Proof.
  exact (test_py_never_crashes_once_client_is_made YTMusicScripts.lib_odd
           [(["headers_auth.json"], RegularFile)] YTMusicScripts.no_repr
           YTMusicScripts.fresh eq_refl).
Defined.

Lemma test_py_crashes_when_client_cannot_be_made_witness :
  YTMusicScripts.run
    (YTMusicScripts.test_py YTMusicScripts.lib_offline [] YTMusicScripts.no_repr)
    YTMusicScripts.fresh
  = (YTMusicScripts.Crashed
       (YTMusicScripts.LibraryError
          (mkError OSError "[Errno 101] Network is unreachable" eq_refl)),
     YTMusicScripts.mkSession
       [ ("Testing YouTube Music API..." ++ nl)%string;
         "No authentication file found. Using public access (limited features)" ]
       [YTMusicScripts.Construct None]).
Proof.
  exact (test_py_crashes_when_client_cannot_be_made YTMusicScripts.lib_offline
           [] YTMusicScripts.no_repr YTMusicScripts.fresh _ eq_refl).
Defined.

Lemma absent_and_null_fields_witness :
  YTMusicScripts.song_line YTMusicScripts.no_repr 2 YTMusicScripts.bare_song
  = YTMusicScripts.Done "2. Unknown - Unknown (Unknown)"
  /\ YTMusicScripts.song_line YTMusicScripts.no_repr 3 YTMusicScripts.null_song
     = YTMusicScripts.Done "3. None - Unknown (None)".
Proof.
  split.
  - apply (proj1 (absent_and_null_fields YTMusicScripts.no_repr 2
                    [("videoId", YTMusicScripts.VStr "4NRXx6U8ABQ")]));
      reflexivity.
  - apply (proj2 (absent_and_null_fields YTMusicScripts.no_repr 3
                    [ ("title", YTMusicScripts.VNone);
                      ("artists", YTMusicScripts.VNone);
                      ("duration", YTMusicScripts.VNone) ]));
      reflexivity.
Defined.

Lemma setup_auth_py_always_finishes_witness :
  exists middle,
    YTMusicScripts.run (YTMusicScripts.setup_auth_py YTMusicScripts.lib_offline)
      YTMusicScripts.fresh
    = (YTMusicScripts.Finished,
       YTMusicScripts.mkSession
         (YTMusicScripts.setup_banner ++ middle
          ++ [(nl ++ str_repeat "=" 60)%string])
         [YTMusicScripts.Construct None])
    /\ middle = ["Error: [Errno 101] Network is unreachable"].
Proof.
  destruct (setup_auth_py_always_finishes YTMusicScripts.lib_offline
              YTMusicScripts.fresh) as (middle & Hrun & _ & _ & Herr).
  exists middle. split; [exact Hrun|]. exact (Herr _ eq_refl).
Defined.
